(** * Stat-tools: a shallow embedding of the statistical core

    Numbers.  Every finite IEEE double is a rational number, so the values
    the scripts read and combine with [+ - * /] are modelled in [Q], exactly;
    the model does not round.  Statements whose outcome could turn on
    rounding (whether a division raises, whether a value is exactly 0) are
    stated only for inputs on which the double computation is exact, or
    take the rounded value from the library routine that computes it.
    Quantities that involve a square root ([np.sqrt]) live in [R].  Library
    routines from scipy, pandas and statsmodels ([t.ppf], [pearsonr],
    [Series.std], [f_oneway], [ttest_ind]), number formatting and file input
    ([pd.read_excel]) are parameters of the Sections that use them. *)

From Stdlib Require Import QArith Qabs Qpower Qreals Reals Lra Lqa Lia ZArith String List Bool SpecFloat.
Import ListNotations.
Open Scope string_scope.

(* ------------------------------------------------------------------------- *)
(** ** Sums and means ([sum], [np.sum], [np.mean]) *)

Module Num.
(** Sum of a sequence; exact, so the summation order does not matter. *)
Definition qsum (xs : list Q) : Q := fold_right Qplus 0 xs.
(** [np.mean] and [sum(xs) / len(xs)]. *)
Definition qmean (xs : list Q) : Q := qsum xs / inject_Z (Z.of_nat (length xs)).
End Num.

(* ------------------------------------------------------------------------- *)
(** ** Python semantics of [/] *)

Module Py.
(** Python division (of floats, or the true division of ints) raises
    [ZeroDivisionError] when the divisor is zero; the true division of two
    ints raises [OverflowError] when its rounded quotient is too large for a
    float. *)
Inductive py_exc := ZeroDivisionError | OverflowError.

Inductive py (A : Type) :=
| Ok (a : A)
| Raise (e : py_exc).
Arguments Ok {A} a.
Arguments Raise {A} e.

Definition py_bind {A B} (c : py A) (k : A -> py B) : py B :=
  match c with Ok a => k a | Raise e => Raise e end.

Notation "'let*' x := c 'in' k" := (py_bind c (fun x => k))
  (at level 100, x name, c at next level, right associativity).

Definition pydiv (x y : Q) : py Q :=
  if Qeq_bool y 0 then Raise ZeroDivisionError else Ok (x / y).

(** The largest finite double is [(2^53 - 1) * 2^971]; a real number
    rounds (to nearest, ties to even) to a finite double exactly when its
    magnitude is below [2^1024 - 2^970]. *)
Definition float_overflow_bound : Q := inject_Z (2 ^ 1024 - 2 ^ 970).

(** [a / b] on two Python ints ([long_true_divide]): [ZeroDivisionError]
    for [b = 0], [OverflowError] when the correctly rounded quotient would
    be [inf], and otherwise the quotient (modelled unrounded). *)
Definition int_truediv (a b : Z) : py Q :=
  if Z.eqb b 0 then Raise ZeroDivisionError
  else
    let q := inject_Z a / inject_Z b in
    if Qle_bool float_overflow_bound (Qabs q) then Raise OverflowError
    else Ok q.

Definition py_exc_str (e : py_exc) : string :=
  match e with
  | ZeroDivisionError => "float division by zero"
  | OverflowError => "integer division result too large for a float"
  end.

End Py.

(* ------------------------------------------------------------------------- *)
(** ** pearson-r_crit_app_gui/stats_utils.py *)

Module StatsUtils.

(** [n.is_integer()] of a finite float [n], i.e. a rational: it holds when
    the reduced denominator is 1. *)
Definition is_integer (n : Q) : bool := Pos.eqb (Qden (Qred n)) 1.

(** The checks of [validate_sample_size] and [validate_alpha] once
    [float(...)] has produced a finite value.  The functions themselves,
    on every outcome of [float(...)] ([nan], [inf], [-inf], or a text that
    is no number), are [PyFloat.validate_sample_size_py] and
    [PyFloat.validate_alpha_py] below. *)

Definition validate_sample_size (n : Q) : bool * string :=
  if Qlt_le_dec n 3 then (false, "Sample size must be at least 3")
  else if negb (is_integer n) then (false, "Sample size must be a whole number")
  else (true, "").

Definition validate_alpha (alpha : Q) : bool * string :=
  if Qle_bool alpha 0 || Qle_bool 1 alpha
  then (false, "Alpha must be between 0 and 1 (exclusive)")
  else (true, "").

(** [compute_degrees_of_freedom]: [return n - 2] on Python ints. *)
Definition compute_degrees_of_freedom (n : Z) : Z := (n - 2)%Z.

(** The dict returned by [compute_pearson_r_critical]. *)
Record critical_result := {
  sample_size : Z;
  alpha : Q;
  test_type : string;
  degrees_of_freedom : Z;
  t_critical : R;
  r_critical : R
}.

Section WithTppf.

(** scipy's [t.ppf(q, df)]: the percent-point function (inverse CDF) of
    Student's t distribution at probability [q] with [df] degrees of
    freedom. *)
Variable t_ppf : Q -> Z -> R.

(** [compute_t_critical]: the branch tests [test_type == "two-tailed"];
    every other string takes the [else] branch. *)
Definition compute_t_critical (alpha : Q) (df : Z) (test_type : string) : R :=
  if String.eqb test_type "two-tailed"
  then t_ppf (1 - alpha / 2) df
  else t_ppf (1 - alpha) df.

(** [compute_pearson_r_critical]: no validation of its own;
    [r_crit = np.sqrt(t_crit**2 / (t_crit**2 + df))]. *)
Definition compute_pearson_r_critical (n : Z) (alpha : Q) (test_type : string)
  : critical_result :=
  let df := compute_degrees_of_freedom n in
  let t_crit := compute_t_critical alpha df test_type in
  let r_crit := sqrt (t_crit ^ 2 / (t_crit ^ 2 + IZR df)) in
  {| sample_size := n; alpha := alpha; test_type := test_type;
     degrees_of_freedom := df; t_critical := t_crit; r_critical := r_crit |}.

End WithTppf.

End StatsUtils.

(** [pearsonR.py]: the top-level script, with its constants
    [alpha = 0.05] and [n = 99]. *)
Module PearsonRScript.

Section WithTppf.
Variable t_ppf : Q -> Z -> R.

Definition alpha : Q := 5 # 100.
Definition n : Z := 99.
Definition df : Z := (n - 2)%Z.
Definition t_crit : R := t_ppf (1 - alpha / 2) df.
Definition r_crit : R := sqrt (t_crit ^ 2 / (t_crit ^ 2 + IZR df)).

End WithTppf.
End PearsonRScript.

(* ------------------------------------------------------------------------- *)
(** ** [float(...)] in [validate_sample_size] and [validate_alpha] *)

Module PyFloat.
Import StatsUtils.

(** The value of [float(x)]: a finite double (a rational), [inf], [-inf] or
    [nan].  [float(x)] of a text that is no number raises [ValueError]; the
    validators take [option pyfloat], [None] for that case. *)
Inductive pyfloat :=
| Finite (q : Q)
| PosInf
| NegInf
| NaN.

(** Python's comparisons against a finite constant; every comparison with
    [nan] is [False]. *)
Definition lt_c (x : pyfloat) (c : Q) : bool :=
  match x with
  | Finite q => negb (Qle_bool c q)
  | PosInf => false
  | NegInf => true
  | NaN => false
  end.

Definition le_c (x : pyfloat) (c : Q) : bool :=
  match x with
  | Finite q => Qle_bool q c
  | PosInf => false
  | NegInf => true
  | NaN => false
  end.

Definition ge_c (x : pyfloat) (c : Q) : bool :=
  match x with
  | Finite q => Qle_bool c q
  | PosInf => true
  | NegInf => false
  | NaN => false
  end.

Definition eq_c (x : pyfloat) (c : Q) : bool :=
  match x with
  | Finite q => Qeq_bool q c
  | _ => false
  end.

(** [float.is_integer()]: [False] for [inf], [-inf] and [nan]. *)
Definition is_integer_f (x : pyfloat) : bool :=
  match x with Finite q => is_integer q | _ => false end.

(** [validate_sample_size(n)] on every outcome of [n = float(n)]. *)
Definition validate_sample_size_py (x : option pyfloat) : bool * string :=
  match x with
  | None => (false, "Sample size must be a valid number")
  | Some n =>
      if lt_c n 3 then (false, "Sample size must be at least 3")
      else if negb (is_integer_f n) then (false, "Sample size must be a whole number")
      else (true, "")
  end.

(** [validate_alpha(alpha)] on every outcome of [alpha = float(alpha)]. *)
Definition validate_alpha_py (x : option pyfloat) : bool * string :=
  match x with
  | None => (false, "Alpha must be a valid number")
  | Some alpha =>
      if le_c alpha 0 || ge_c alpha 1
      then (false, "Alpha must be between 0 and 1 (exclusive)")
      else (true, "")
  end.

End PyFloat.

(* ------------------------------------------------------------------------- *)
(** ** IEEE doubles, for [Series.std()] on short columns

    Binary64 arithmetic as the Standard Library's [SpecFloat] specifies it
    (round to nearest, ties to even).  [nanstd_short] follows pandas'
    [nanops.nanstd] with [ddof=1] on a column without missing values:
    [avg = values.sum() / count], [sqr = (avg - values) ** 2],
    [result = sqr.sum() / (count - 1)], then [np.sqrt].  numpy's [add.reduce]
    on fewer than 9 values adds to the first value the left-to-right sum of
    the others, started at [-0.0]; [np_sum_short] is that sum, and the
    columns this is applied to are that short.  Instantiating the [std()]
    parameter of [ExcelUtils] with it gives pandas' value on such columns. *)

Module Double.
Import PyFloat.

Definition prec : Z := 53.
Definition emax : Z := 1024.

Definition of_Z (z : Z) : spec_float := binary_normalize prec emax z 0 false.

(** [float(q)] for a rational whose numerator and denominator are doubles
    (one correctly rounded division). *)
Definition of_Q (q : Q) : spec_float :=
  SFdiv prec emax (of_Z (Qnum q)) (of_Z (Zpos (Qden q))).

Definition to_pyfloat (x : spec_float) : pyfloat :=
  match x with
  | S754_zero _ => Finite 0
  | S754_infinity false => PosInf
  | S754_infinity true => NegInf
  | S754_nan => NaN
  | S754_finite s m e =>
      let v := if Z.leb 0 e then inject_Z (Zpos m * 2 ^ e) else Zpos m # Pos.pow 2 (Z.to_pos (- e)) in
      Finite (if s then - v else v)
  end.

Definition np_sum_short (xs : list spec_float) : spec_float :=
  match xs with
  | [] => S754_zero false
  | x :: rest => SFadd prec emax x (fold_left (SFadd prec emax) rest (S754_zero true))
  end.

Definition nanstd_short (xs : list spec_float) : spec_float :=
  let count := of_Z (Z.of_nat (length xs)) in
  let avg := SFdiv prec emax (np_sum_short xs) count in
  let sqr := map (fun x => let d := SFsub prec emax avg x in SFmul prec emax d d) xs in
  SFsqrt prec emax (SFdiv prec emax (np_sum_short sqr) (SFsub prec emax count (of_Z 1))).

(** [Series.std()] of a short column of doubles given as rationals. *)
Definition series_std_short (xs : list Q) : pyfloat :=
  to_pyfloat (nanstd_short (map of_Q xs)).

End Double.

(* ------------------------------------------------------------------------- *)
(** ** pearson-r_crit_app_gui/excel_utils.py *)

Module ExcelUtils.
Import Num StatsUtils PyFloat.

(** Decimal rendering of a Python [int] inside an f-string. *)
Fixpoint digits_of_nat (fuel n : nat) (acc : string) : string :=
  match fuel with
  | O => acc
  | S fuel' =>
      let d := String (Ascii.ascii_of_nat (48 + n mod 10)) EmptyString in
      if Nat.ltb n 10 then d ++ acc else digits_of_nat fuel' (n / 10) (d ++ acc)
  end.

Definition string_of_nat (n : nat) : string := digits_of_nat (S n) n "".

(** A pandas column: its label, whether its dtype is numeric
    ([np.issubdtype(dtype, np.number)]), and its cells, [None] for NaN. *)
Record column := {
  cname : string;
  cnumeric : bool;
  cvalues : list (option Q)
}.

(** A DataFrame as its list of columns, in column order; all columns have
    the same number of rows, and the labels are distinct ([pd.read_excel]
    renames a repeated header [x] to [x.1]). *)
Definition DataFrame := list column.

Definition nrows (df : DataFrame) : nat :=
  match df with [] => 0 | c :: _ => length (cvalues c) end.

(** [df.empty]: no columns or no rows. *)
Definition df_empty (df : DataFrame) : bool :=
  Nat.eqb (length df) 0 || Nat.eqb (nrows df) 0.

(** [col in df.columns] and [df[col]]. *)
Definition has_column (df : DataFrame) (col : string) : bool :=
  existsb (fun c => String.eqb (cname c) col) df.

Definition get_column (df : DataFrame) (col : string) : option column :=
  find (fun c => String.eqb (cname c) col) df.

(** [get_numeric_columns]: [df.select_dtypes(include=[np.number]).columns]. *)
Definition get_numeric_columns (df : DataFrame) : list string :=
  map cname (filter cnumeric df).

(** [df[[col1, col2]].dropna()]: the rows where both cells are present. *)
Fixpoint dropna_pair (xs ys : list (option Q)) : list (Q * Q) :=
  match xs, ys with
  | Some x :: xs', Some y :: ys' => (x, y) :: dropna_pair xs' ys'
  | _ :: xs', _ :: ys' => dropna_pair xs' ys'
  | _, _ => []
  end.

Definition clean_data (df : DataFrame) (col1 col2 : string) : list (Q * Q) :=
  match get_column df col1, get_column df col2 with
  | Some c1, Some c2 => dropna_pair (cvalues c1) (cvalues c2)
  | _, _ => []
  end.

(** The dict of [compute_correlation_from_data]. *)
Record corr_data := {
  column_1 : string;
  column_2 : string;
  cd_sample_size : nat;
  cd_r_value : R;
  cd_p_value : R;
  original_rows : nat;
  rows_with_missing : nat
}.

(** The merged dict [{**corr_results, **critical_results, 'is_significant'}];
    the critical dict's [sample_size] overwrites the (equal) one of
    [corr_results].  [significance_interpretation] is the text under that
    key, which [analyze_excel_correlation] adds and the records of
    [get_all_correlation_pairs] do not have ([None]). *)
Record correlation_result := {
  res_column_1 : string;
  res_column_2 : string;
  res_sample_size : Z;
  r_value : R;
  p_value : R;
  res_original_rows : nat;
  res_rows_with_missing : nat;
  res_alpha : Q;
  res_test_type : string;
  res_degrees_of_freedom : Z;
  res_t_critical : R;
  res_r_critical : R;
  is_significant : bool;
  significance_interpretation : option string
}.

(** Python's [a > b] on the two floats. *)
Definition Rgtb (a b : R) : bool := if Rlt_dec b a then true else false.

(** Outcome of [pd.read_excel(filepath)]. *)
Inductive read_outcome :=
| ReadOk (df : DataFrame)
| ReadFileNotFound
| ReadFailed (msg : string).

Section WithLibs.

Variable t_ppf : Q -> Z -> R.
(** scipy's [pearsonr(x, y)]: [(r, p)], or [None] where it raises. *)
Variable pearsonr : list Q -> list Q -> option (R * R).
Variable pd_read_excel : string -> read_outcome.
(** pandas' [Series.std()] (sample standard deviation, [ddof=1]) of the
    column's values, as the double it returns: rounding in its mean can
    make it a tiny nonzero number for a constant column. *)
Variable series_std : list Q -> pyfloat.
(** Python's [format(x, spec)] of a float: [f"{x}"] is spec [""],
    [f"{x:.4f}"] is spec [".4f"]. *)
Variable py_format : R -> string -> string.

(** [validate_columns_for_correlation]; [None] where it raises: for
    [col1 = col2], [clean_data[col1]] has two columns, [std()] gives a
    Series, and [if] on the Series [== 0] raises [ValueError]. *)
Definition validate_columns_for_correlation (df : DataFrame) (col1 col2 : string)
  : option (bool * string) :=
  match get_column df col1 with
  | None => Some (false, "Column '" ++ col1 ++ "' not found in the Excel file")
  | Some c1 =>
  match get_column df col2 with
  | None => Some (false, "Column '" ++ col2 ++ "' not found in the Excel file")
  | Some c2 =>
  if negb (cnumeric c1) then Some (false, "Column '" ++ col1 ++ "' is not numeric")
  else if negb (cnumeric c2) then Some (false, "Column '" ++ col2 ++ "' is not numeric")
  else
    let clean := dropna_pair (cvalues c1) (cvalues c2) in
    if Nat.ltb (length clean) 3 then
      Some (false, "Not enough valid data points (need at least 3, found "
                     ++ string_of_nat (length clean) ++ ")")
    else if String.eqb col1 col2 then None
    else if eq_c (series_std (map fst clean)) 0 then
      Some (false, "Column '" ++ col1 ++ "' has zero variance (all values are the same)")
    else if eq_c (series_std (map snd clean)) 0 then
      Some (false, "Column '" ++ col2 ++ "' has zero variance (all values are the same)")
    else Some (true, "")
  end
  end.

Definition read_excel_file (filepath : string) : bool * option DataFrame * string :=
  match pd_read_excel filepath with
  | ReadOk df =>
      if df_empty df then (false, None, "The Excel file is empty")
      else (true, Some df, "")
  | ReadFileNotFound => (false, None, "File not found")
  | ReadFailed e => (false, None, "Error reading Excel file: " ++ e)
  end.

(** [compute_correlation_from_data]; [None] where the code raises
    ([df[[col1, col2]]] on a missing column, or [pearsonr]). *)
Definition compute_correlation_from_data (df : DataFrame) (col1 col2 : string)
  : option corr_data :=
  if has_column df col1 && has_column df col2 then
    let clean := clean_data df col1 col2 in
    let x := map fst clean in
    let y := map snd clean in
    match pearsonr x y with
    | None => None
    | Some (r, p) =>
        let n := length x in
        Some {| column_1 := col1; column_2 := col2; cd_sample_size := n;
                cd_r_value := r; cd_p_value := p;
                original_rows := nrows df; rows_with_missing := nrows df - n |}
    end
  else None.

Definition merge_results (corr : corr_data) (crit : critical_result)
  (sig : bool) (interp : option string) : correlation_result :=
  {| res_column_1 := column_1 corr; res_column_2 := column_2 corr;
     res_sample_size := sample_size crit;
     r_value := cd_r_value corr; p_value := cd_p_value corr;
     res_original_rows := original_rows corr;
     res_rows_with_missing := rows_with_missing corr;
     res_alpha := StatsUtils.alpha crit; res_test_type := StatsUtils.test_type crit;
     res_degrees_of_freedom := degrees_of_freedom crit;
     res_t_critical := t_critical crit; res_r_critical := r_critical crit;
     is_significant := sig; significance_interpretation := interp |}.

(** The f-string under ['significance_interpretation']. *)
Definition significance_text (sig : bool) (alpha : Q) (abs_r r_crit : R) : string :=
  "The correlation is " ++ (if sig then "SIGNIFICANT" else "NOT SIGNIFICANT")
  ++ " at α = " ++ py_format (Q2R alpha) ""
  ++ " (|r| = " ++ py_format abs_r ".4f"
  ++ " " ++ (if sig then ">" else "<") ++ " " ++ py_format r_crit ".4f" ++ ")".

(** [analyze_excel_correlation]; the outer [None] is an exception escaping
    from [validate_columns_for_correlation] or
    [compute_correlation_from_data] (neither call is inside a [try]). *)
Definition analyze_excel_correlation (filepath col1 col2 : string) (alpha : Q)
  (test_type : string) : option (bool * option correlation_result * string) :=
  match read_excel_file filepath with
  | (false, _, error) => Some (false, None, error)
  | (true, None, error) => Some (false, None, error)
  | (true, Some df, _) =>
      match validate_columns_for_correlation df col1 col2 with
      | None => None
      | Some (is_valid, error) =>
      if negb is_valid then Some (false, None, error)
      else
        match compute_correlation_from_data df col1 col2 with
        | None => None
        | Some corr =>
            let crit := compute_pearson_r_critical t_ppf
                          (Z.of_nat (cd_sample_size corr)) alpha test_type in
            let sig := Rgtb (Rabs (cd_r_value corr)) (r_critical crit) in
            let interp := significance_text sig alpha (Rabs (cd_r_value corr))
                            (r_critical crit) in
            Some (true, Some (merge_results corr crit sig (Some interp)), "")
        end
      end
  end.

(** [itertools.combinations(xs, 2)], in its order. *)
Fixpoint combinations2 {A} (xs : list A) : list (A * A) :=
  match xs with
  | [] => []
  | x :: rest => app (map (fun y => (x, y)) rest) (combinations2 rest)
  end.

(** One iteration of the loop body of [get_all_correlation_pairs]:
    [None] is [continue] (invalid pair, or an exception caught by
    [except Exception: continue]). *)
Definition pair_result (df : DataFrame) (alpha : Q) (test_type : string)
  (cols : string * string) : option correlation_result :=
  let (col1, col2) := cols in
  match validate_columns_for_correlation df col1 col2 with
  | None => None
  | Some (is_valid, _) =>
  if negb is_valid then None
  else
    match compute_correlation_from_data df col1 col2 with
    | None => None
    | Some corr =>
        let crit := compute_pearson_r_critical t_ppf
                      (Z.of_nat (cd_sample_size corr)) alpha test_type in
        let sig := Rgtb (Rabs (cd_r_value corr)) (r_critical crit) in
        Some (merge_results corr crit sig None)
    end
  end.

Fixpoint collect_pairs (df : DataFrame) (alpha : Q) (test_type : string)
  (pairs : list (string * string)) : list correlation_result :=
  match pairs with
  | [] => []
  | p :: rest =>
      match pair_result df alpha test_type p with
      | Some r => r :: collect_pairs df alpha test_type rest
      | None => collect_pairs df alpha test_type rest
      end
  end.

Definition get_all_correlation_pairs (df : DataFrame) (alpha : Q)
  (test_type : string) : list correlation_result :=
  let numeric_cols := get_numeric_columns df in
  if Nat.ltb (length numeric_cols) 2 then []
  else collect_pairs df alpha test_type (combinations2 numeric_cols).

End WithLibs.

(** A record without its ['significance_interpretation'] key. *)
Definition drop_interpretation (r : correlation_result) : correlation_result :=
  {| res_column_1 := res_column_1 r; res_column_2 := res_column_2 r;
     res_sample_size := res_sample_size r; r_value := r_value r; p_value := p_value r;
     res_original_rows := res_original_rows r;
     res_rows_with_missing := res_rows_with_missing r;
     res_alpha := res_alpha r; res_test_type := res_test_type r;
     res_degrees_of_freedom := res_degrees_of_freedom r;
     res_t_critical := res_t_critical r; res_r_critical := res_r_critical r;
     is_significant := is_significant r; significance_interpretation := None |}.

(** A frame as pandas builds it: every column has the frame's row count. *)
Definition df_well_formed (df : DataFrame) : Prop :=
  Forall (fun c => length (cvalues c) = nrows df) df.

End ExcelUtils.

(* ------------------------------------------------------------------------- *)
(** ** anova.py and Anova/ANOVA1.py *)

Module Anova.
Import Num.

(** The 8-tuple returned by [manual_anova]. *)
Record anova_tuple := {
  SS_between : Q;
  SS_within : Q;
  SS_total : Q;
  df_between : Z;
  df_within : Z;
  MS_between : Q;
  MS_within : Q;
  F_calculated : Q
}.

(** [manual_anova(groups)], identical in [anova.py] and [Anova/ANOVA1.py].
    [np.concatenate] of an empty list raises [ValueError]: [None].  No other
    path raises: the divisions are numpy float divisions, which give
    inf or nan (with a warning) on a zero divisor; the model's [Q] division
    returns 0 there, and no theorem below depends on that value.
    [SS_between] accumulates over the groups from 0, as the loop of
    [anova.py] and the [sum(...)] of [ANOVA1.py] do. *)
Definition manual_anova (groups : list (list Q)) : option anova_tuple :=
  match groups with
  | [] => None
  | _ =>
    let all_data := concat groups in
    let grand_mean := qmean all_data in
    let k := Z.of_nat (length groups) in
    let N := Z.of_nat (length all_data) in
    let SS_total := qsum (map (fun x => (x - grand_mean) ^ 2) all_data) in
    let SS_between :=
      fold_left (fun acc g =>
                   acc + inject_Z (Z.of_nat (length g)) * (qmean g - grand_mean) ^ 2)
                groups 0 in
    let SS_within := SS_total - SS_between in
    let df_between := (k - 1)%Z in
    let df_within := (N - k)%Z in
    let MS_between := SS_between / inject_Z df_between in
    let MS_within := SS_within / inject_Z df_within in
    let F_calculated := MS_between / MS_within in
    Some {| SS_between := SS_between; SS_within := SS_within; SS_total := SS_total;
            df_between := df_between; df_within := df_within;
            MS_between := MS_between; MS_within := MS_within;
            F_calculated := F_calculated |}
  end.

(** [np.array(rows).flatten()] on a list of lists of labels: a 2-D array
    flattened row by row when all rows have one length; an inhomogeneous
    (ragged) nested list raises [ValueError] in NumPy 1.24 and later:
    [None]. *)
Definition np_array_flatten (rows : list (list string)) : option (list string) :=
  match rows with
  | [] => Some []
  | r :: _ =>
      if forallb (fun r' => Nat.eqb (length r') (length r)) rows
      then Some (concat rows) else None
  end.

(** [np.unique]: sorted, without duplicates (byte order of the labels). *)
Fixpoint insert_sorted (x : string) (xs : list string) : list string :=
  match xs with
  | [] => [x]
  | y :: ys => if String.leb x y then x :: y :: ys else y :: insert_sorted x ys
  end.

Fixpoint dedup_sorted (xs : list string) : list string :=
  match xs with
  | x :: (y :: _) as rest =>
      if String.eqb x y then dedup_sorted rest else x :: dedup_sorted rest
  | _ => xs
  end.

Definition np_unique (xs : list string) : list string :=
  dedup_sorted (fold_right insert_sorted [] xs).

(** The order [insert_sorted] sorts by, as a relation. *)
Definition str_le (x y : string) : Prop := String.leb x y = true.

(** statsmodels' [pairwise_tukeyhsd(endog, groups)], reduced to the group
    pairs listed in the rows of [summary().data] after its header row: one
    row per pair of distinct labels, taken in [np.unique] order.  It raises
    when [endog] and [groups] differ in length: [None].  The numeric cells
    (mean difference, adjusted p, interval, reject flag) are not modelled. *)
Definition pairwise_tukeyhsd (endog : list Q) (groups : list string)
  : option (list (string * string)) :=
  if Nat.eqb (length endog) (length groups)
  then Some (ExcelUtils.combinations2 (np_unique groups))
  else None.

(** [[[age_labels[i]]*len(g) for i,g in enumerate(all_groups)]]; an
    [age_labels] shorter than [all_groups] raises [IndexError]. *)
Fixpoint label_rows (all_groups : list (list Q)) (age_labels : list string)
  : option (list (list string)) :=
  match all_groups, age_labels with
  | [], _ => Some []
  | g :: gs, l :: ls =>
      match label_rows gs ls with
      | Some rows => Some (repeat l (length g) :: rows)
      | None => None
      end
  | _ :: _, [] => None
  end.

(** The values [create_anova_report] of [ANOVA1.py] returns; the formatted
    p-value string and the .docx document it writes are presentation. *)
Record anova_report := {
  rep_filename : string;
  rep_F_calculated : Q;
  rep_SS_between : Q;
  rep_SS_within : Q;
  rep_p_value : Q;
  rep_df_between : Z;
  rep_df_within : Z;
  rep_MS_between : Q;
  rep_MS_within : Q;
  posthoc_table : option (list (string * string))
}.

Section WithFOneway.

(** scipy's [f_oneway] applied to the groups: [(F_statistic, p_value)]. *)
Variable f_oneway : list (list Q) -> Q * Q.

(** [create_anova_report] of [Anova/ANOVA1.py]; [None] where it raises.
    The descriptive table indexes [age_labels[i]] for every group before the
    decision on [p_value < 0.05]; the post-hoc branch rebuilds the labels
    with [np.array(...).flatten()] and calls [pairwise_tukeyhsd]. *)
Definition create_anova_report (title subtitle filename : string)
  (all_groups : list (list Q)) (age_labels : list string) : option anova_report :=
  match manual_anova all_groups with
  | None => None
  | Some a =>
    let (F_statistic, p_value) := f_oneway all_groups in
    match label_rows all_groups age_labels with
    | None => None
    | Some rows =>
      let finish posthoc :=
        Some {| rep_filename := filename; rep_F_calculated := F_calculated a;
                rep_SS_between := SS_between a; rep_SS_within := SS_within a;
                rep_p_value := p_value; rep_df_between := df_between a;
                rep_df_within := df_within a; rep_MS_between := MS_between a;
                rep_MS_within := MS_within a; posthoc_table := posthoc |} in
      if Qlt_le_dec p_value (5 # 100) then
        let all_values := concat all_groups in
        match np_array_flatten rows with
        | None => None
        | Some labels =>
          match pairwise_tukeyhsd all_values labels with
          | None => None
          | Some tukey_data => finish (Some tukey_data)
          end
        end
      else finish None
    end
  end.

End WithFOneway.
End Anova.

(* ------------------------------------------------------------------------- *)
(** ** t-test/t-test.py: [IndependentTTestApp.compute_ttest] *)

Module WelchTTest.
Import Num Py.

(** The [self.results] dict (its data lists and timestamp left out). *)
Record ttest_results := {
  mean1 : Q;
  mean2 : Q;
  n1 : nat;
  n2 : nat;
  t_statistic : Q;
  df : Q;
  p_value : Q;
  conclusion : string
}.

(** What [compute_ttest] ends in: an error dialog, or stored results. *)
Inductive ttest_outcome :=
| ShowError (title msg : string)
| Results (r : ttest_results).

Section WithTtestInd.

(** scipy's [stats.ttest_ind(a, b, equal_var=False)]: [(t, p)]. *)
Variable ttest_ind : list Q -> list Q -> Q * Q.

(** Body of the [try] block after parsing: the two groups as parsed by
    [parse_input] (the emptiness test on the raw text widgets and the regex
    parsing are the GUI layer). *)
Definition compute_ttest_body (group1_data group2_data : list Q) : py ttest_outcome :=
  if Nat.eqb (length group1_data) 0 || Nat.eqb (length group2_data) 0 then
    Ok (ShowError "Input Error" "No valid numeric values found. Please enter numeric data.")
  else if Nat.ltb (length group1_data) 2 || Nat.ltb (length group2_data) 2 then
    Ok (ShowError "Input Error" "Each group must have at least 2 values.")
  else
    let n1 := length group1_data in
    let n2 := length group2_data in
    let* mean1 := pydiv (qsum group1_data) (inject_Z (Z.of_nat n1)) in
    let* mean2 := pydiv (qsum group2_data) (inject_Z (Z.of_nat n2)) in
    let (t_statistic, p_value) := ttest_ind group1_data group2_data in
    let qn1 := inject_Z (Z.of_nat n1) in
    let qn2 := inject_Z (Z.of_nat n2) in
    let* var1 := pydiv (qsum (map (fun x => (x - mean1) ^ 2) group1_data)) (qn1 - 1) in
    let* var2 := pydiv (qsum (map (fun x => (x - mean2) ^ 2) group2_data)) (qn2 - 1) in
    let* a1 := pydiv var1 qn1 in
    let* a2 := pydiv var2 qn2 in
    let* b1 := pydiv (a1 ^ 2) (qn1 - 1) in
    let* b2 := pydiv (a2 ^ 2) (qn2 - 1) in
    let* df := pydiv ((a1 + a2) ^ 2) (b1 + b2) in
    let alpha := 5 # 100 in
    let conclusion :=
      if Qle_bool p_value alpha
      then "There is a significant difference between the two groups."
      else "There is no significant difference between the two groups." in
    Ok (Results {| mean1 := mean1; mean2 := mean2; n1 := n1; n2 := n2;
                   t_statistic := t_statistic; df := df; p_value := p_value;
                   conclusion := conclusion |}).

(** The [except] clauses: a [ZeroDivisionError] reaches
    [except Exception as e] and shows ["An error occurred: ..."]. *)
Definition compute_ttest (group1_data group2_data : list Q) : ttest_outcome :=
  match compute_ttest_body group1_data group2_data with
  | Ok o => o
  | Raise e => ShowError "Error" ("An error occurred: " ++ py_exc_str e)
  end.

End WithTtestInd.
End WelchTTest.

(* ------------------------------------------------------------------------- *)
(** ** weighted_mean.py *)

Module WeightedMean.
Import Py.

(** What [weighted_mean()] prints after reading the four frequencies with
    [int(input(...))]: the refusal line, or the mean (printed with
    [:.2f]). *)
Inductive wm_output :=
| NoRespondents
| Mean (w_mean : Q).

Definition no_respondents_msg : string :=
  "No respondents. Weighted mean cannot be computed.".

Definition weighted_mean (f4 f3 f2 f1 : Z) : py wm_output :=
  let weighted_sum := (4 * f4 + 3 * f3 + 2 * f2 + 1 * f1)%Z in
  let total_f := (f4 + f3 + f2 + f1)%Z in
  if Z.eqb total_f 0 then Ok NoRespondents
  else
    let* w_mean := int_truediv weighted_sum total_f in
    Ok (Mean w_mean).

End WeightedMean.




(* ========================================================================= *)
(** * Properties *)

Module PyFloatFacts.
Import StatsUtils PyFloat.

Lemma validate_sample_size_py_true : forall x : option pyfloat,
  validate_sample_size_py x = (true, "") <->
  exists q, x = Some (Finite q) /\ 3 <= q /\ is_integer q = true.
Proof.
  intros x.
  destruct x as [[q| | | ]|]; cbn [validate_sample_size_py lt_c is_integer_f negb];
    try (split; [discriminate|intros [q' [E _]]; discriminate]).
  destruct (Qle_bool 3 q) eqn:E; cbn [negb].
  - apply Qle_bool_iff in E. destruct (is_integer q) eqn:I; cbn [negb].
    + split; [intros _; exists q; auto|reflexivity].
    + split; [discriminate|intros [q' [Eq [_ I']]]; injection Eq as <-; congruence].
  - split; [discriminate|].
    intros [q' [Eq [H _]]]. injection Eq as <-. apply Qle_bool_iff in H. congruence.
Qed.

Lemma validate_alpha_py_true : forall x : option pyfloat,
  validate_alpha_py x = (true, "") <->
  (exists q, x = Some (Finite q) /\ 0 < q /\ q < 1) \/ x = Some NaN.
Proof.
  intros x.
  destruct x as [[q| | | ]|]; cbn [validate_alpha_py le_c ge_c orb].
  - destruct (Qle_bool q 0) eqn:E1; cbn [orb].
    + apply Qle_bool_iff in E1. split; [discriminate|].
      intros [[q' [Eq [H _]]]|Eq]; [injection Eq as <-; lra|discriminate].
    + destruct (Qle_bool 1 q) eqn:E2.
      * apply Qle_bool_iff in E2. split; [discriminate|].
        intros [[q' [Eq [_ H]]]|Eq]; [injection Eq as <-; lra|discriminate].
      * split; [intros _; left; exists q|reflexivity].
        split; [reflexivity|].
        split; apply Qnot_le_lt; intros H; apply Qle_bool_iff in H; congruence.
  - split; [discriminate|intros [[q [E _]]|E]; discriminate].
  - split; [discriminate|intros [[q [E _]]|E]; discriminate].
  - split; [intros _; right; reflexivity|reflexivity].
  - split; [discriminate|intros [[q [E _]]|E]; discriminate].
Qed.

Lemma validate_sample_size_py_small : forall x : option pyfloat,
  validate_sample_size_py x = (false, "Sample size must be at least 3") <->
  (exists q, x = Some (Finite q) /\ q < 3) \/ x = Some NegInf.
Proof.
  intros x.
  destruct x as [[q| | | ]|]; cbn [validate_sample_size_py lt_c is_integer_f negb].
  - destruct (Qle_bool 3 q) eqn:E; cbn [negb].
    + apply Qle_bool_iff in E. split.
      * destruct (negb (is_integer q)); discriminate.
      * intros [[q' [Eq H]]|Eq]; [injection Eq as <-; lra|discriminate].
    + split; [intros _; left; exists q; split; [reflexivity|]|reflexivity].
      apply Qnot_le_lt. intros H. apply Qle_bool_iff in H. congruence.
  - split; [discriminate|intros [[q [E _]]|E]; discriminate].
  - split; [intros _; right; reflexivity|reflexivity].
  - split; [discriminate|intros [[q [E _]]|E]; discriminate].
  - split; [discriminate|intros [[q [E _]]|E]; discriminate].
Qed.

Lemma validate_alpha_py_range : forall x : option pyfloat,
  validate_alpha_py x = (false, "Alpha must be between 0 and 1 (exclusive)") <->
  (exists q, x = Some (Finite q) /\ (q <= 0 \/ 1 <= q)) \/
  x = Some PosInf \/ x = Some NegInf.
Proof.
  intros x.
  destruct x as [[q| | | ]|]; cbn [validate_alpha_py le_c ge_c orb].
  - destruct (Qle_bool q 0) eqn:E1; cbn [orb].
    + apply Qle_bool_iff in E1. split; [intros _; left; exists q; auto|reflexivity].
    + destruct (Qle_bool 1 q) eqn:E2.
      * apply Qle_bool_iff in E2. split; [intros _; left; exists q; auto|reflexivity].
      * split; [discriminate|].
        intros [[q' [Eq [H|H]]]|[Eq|Eq]]; try discriminate;
          injection Eq as <-; apply Qle_bool_iff in H; congruence.
  - split; [intros _; right; left; reflexivity|reflexivity].
  - split; [intros _; right; right; reflexivity|reflexivity].
  - split; [discriminate|intros [[q [E _]]|[E|E]]; discriminate].
  - split; [discriminate|intros [[q [E _]]|[E|E]]; discriminate].
Qed.

End PyFloatFacts.

Module PearsonCriticalFacts.
Import StatsUtils PyFloat PyFloatFacts.

(** C1: [compute_pearson_r_critical] returns [degrees_of_freedom = n - 2]
    and [r_critical = sqrt(t_critical^2 / (t_critical^2 + degrees_of_freedom))]
    for the [t_critical] it also returns, for every [n], [alpha] and tail
    mode (in particular for [n >= 3] and [alpha] in (0,1)). *)
Theorem compute_pearson_r_critical_r_from_t :
  forall (t_ppf : Q -> Z -> R) (n : Z) (alpha : Q) (test_type : string),
    let res := compute_pearson_r_critical t_ppf n alpha test_type in
    degrees_of_freedom res = (n - 2)%Z /\
    t_critical res = compute_t_critical t_ppf alpha (n - 2) test_type /\
    r_critical res =
      sqrt (t_critical res ^ 2 / (t_critical res ^ 2 + IZR (degrees_of_freedom res))).
Proof.
  intros t_ppf n alpha test_type res.
  subst res; unfold compute_pearson_r_critical, compute_degrees_of_freedom; simpl.
  repeat split; reflexivity.
Qed.

(** C9: [compute_t_critical] evaluates the t percent-point function at the
    mass [1 - alpha/2] when the mode is ["two-tailed"] and at [1 - alpha]
    for every other mode string; [pearsonR.py] takes the two-tailed mass. *)
Theorem compute_t_critical_probability_mass :
  forall (t_ppf : Q -> Z -> R) (alpha : Q) (df : Z) (test_type : string),
    compute_t_critical t_ppf alpha df "two-tailed" = t_ppf (1 - alpha / 2) df /\
    (test_type <> "two-tailed" ->
       compute_t_critical t_ppf alpha df test_type = t_ppf (1 - alpha) df) /\
    PearsonRScript.t_crit t_ppf =
      compute_t_critical t_ppf PearsonRScript.alpha PearsonRScript.df "two-tailed".
Proof.
  intros t_ppf alpha df test_type.
  split; [reflexivity | split].
  - intros Hne. unfold compute_t_critical.
    destruct (String.eqb_spec test_type "two-tailed") as [E|E];
      [contradiction | reflexivity].
  - reflexivity.
Qed.

(** Witness of [compute_t_critical_probability_mass] on the one-tailed mode. *)
Lemma compute_t_critical_probability_mass_witness :
  compute_t_critical (fun q _ => Q2R q) (5 # 100) 10 "one-tailed"
    = Q2R (1 - (5 # 100)).
Proof.
  apply (proj1 (proj2 (compute_t_critical_probability_mass
                         (fun q _ => Q2R q) (5 # 100) 10 "one-tailed"))).
  discriminate.
Defined.

(** C4 refuted: at [n = 2] and [alpha = 0] the computation itself returns a
    result record (with [degrees_of_freedom = 0]); only the separate
    validators reject these inputs. *)
Lemma compute_pearson_r_critical_no_validation_counterexample :
  degrees_of_freedom (compute_pearson_r_critical (fun _ _ => 0%R) 2 0 "two-tailed") = 0%Z /\
  sample_size (compute_pearson_r_critical (fun _ _ => 0%R) 2 0 "two-tailed") = 2%Z /\
  validate_sample_size_py (Some (Finite 2)) = (false, "Sample size must be at least 3") /\
  validate_alpha_py (Some (Finite 0)) = (false, "Alpha must be between 0 and 1 (exclusive)").
Proof. repeat split; reflexivity. Qed.

(** C4 as amended: [compute_pearson_r_critical] validates nothing and returns
    its record, with [sample_size = n], that [alpha] and
    [degrees_of_freedom = n - 2], for every [n] and [alpha].  The checks are
    the separate validators, which first convert with [float(...)]:
    [validate_sample_size] answers [(False, "Sample size must be at least
    3")] exactly when [float(n)] is a finite value below 3 or [-inf];
    [validate_alpha] answers [(False, "Alpha must be between 0 and 1
    (exclusive)")] exactly when [float(alpha)] is a finite value [<= 0] or
    [>= 1], [inf] or [-inf], and [(True, "")] exactly when it is a finite
    value in (0, 1) or [nan]; an argument [float] cannot convert gets the
    "must be a valid number" message. *)
Theorem pearson_validation_is_separate :
  forall (t_ppf : Q -> Z -> R) (n : Z) (alpha : Q) (test_type : string)
         (x a : option pyfloat),
    (sample_size (compute_pearson_r_critical t_ppf n alpha test_type) = n /\
     StatsUtils.alpha (compute_pearson_r_critical t_ppf n alpha test_type) = alpha /\
     degrees_of_freedom (compute_pearson_r_critical t_ppf n alpha test_type) = (n - 2)%Z) /\
    (validate_sample_size_py x = (false, "Sample size must be at least 3") <->
       (exists q, x = Some (Finite q) /\ q < 3) \/ x = Some NegInf) /\
    (validate_alpha_py a = (false, "Alpha must be between 0 and 1 (exclusive)") <->
       (exists q, a = Some (Finite q) /\ (q <= 0 \/ 1 <= q)) \/
       a = Some PosInf \/ a = Some NegInf) /\
    (validate_alpha_py a = (true, "") <->
       (exists q, a = Some (Finite q) /\ 0 < q /\ q < 1) \/ a = Some NaN) /\
    validate_sample_size_py None = (false, "Sample size must be a valid number") /\
    validate_alpha_py None = (false, "Alpha must be a valid number").
Proof.
  intros t_ppf n alpha test_type x a.
  split; [repeat split; reflexivity|].
  split; [apply validate_sample_size_py_small|].
  split; [apply validate_alpha_py_range|].
  split; [apply validate_alpha_py_true|].
  split; reflexivity.
Qed.

End PearsonCriticalFacts.

Module AnovaFacts.
Import Num Anova.




(** C3 refuted: [manual_anova] raises nothing when [MS_within = 0]
    (two constant groups, [N - k = 2]) nor when [N - k = 0]
    (two one-element groups); it returns its tuple. *)
Lemma manual_anova_degenerate_counterexample :
  (exists a, manual_anova [[1; 1]; [2; 2]] = Some a /\
             df_within a = 2%Z /\ MS_within a == 0) /\
  (exists a, manual_anova [[1]; [2]] = Some a /\ df_within a = 0%Z).
Proof.
  split; (eexists; split; [reflexivity|]); vm_compute; [split; reflexivity | reflexivity].
Qed.

(** C3 as amended: [manual_anova] has no degenerate-input check.  It raises
    only on an empty list of groups ([np.concatenate]); for every other list
    it returns its tuple, with [df_within = N - k], [MS_within =
    SS_within / (N - k)] and [F = MS_between / MS_within] computed without a
    guard, also when [N - k <= 0] or [MS_within = 0]. *)
Theorem manual_anova_no_degenerate_check :
  forall groups : list (list Q),
    (manual_anova groups = None <-> groups = []) /\
    (groups <> [] ->
     exists a, manual_anova groups = Some a /\
       df_within a = (Z.of_nat (length (concat groups)) - Z.of_nat (length groups))%Z /\
       MS_within a = SS_within a / inject_Z (df_within a) /\
       F_calculated a = MS_between a / MS_within a).
Proof.
  intros [|g gs]; split.
  - split; reflexivity.
  - intros H; contradiction.
  - split; discriminate.
  - intros _. eexists; split; [reflexivity|]. repeat split.
Qed.

(** Witness of [manual_anova_no_degenerate_check] on two constant groups. *)
Lemma manual_anova_no_degenerate_check_witness :
  exists a, manual_anova [[1; 1]; [2; 2]] = Some a /\
    MS_within a = SS_within a / inject_Z (df_within a).
Proof.
  destruct (proj2 (manual_anova_no_degenerate_check [[1; 1]; [2; 2]]))
    as [a [Ha [_ [Hm _]]]].
  - discriminate.
  - exists a. split; assumption.
Defined.

End AnovaFacts.

Module PostHocFacts.
Import Anova.

(** The condition of the post-hoc branch: whenever [create_anova_report] returns
    and [p_value >= 0.05], no post-hoc table was built. *)
Lemma create_anova_report_no_posthoc_when_not_significant :
  forall f_oneway title subtitle filename all_groups age_labels rep,
    create_anova_report f_oneway title subtitle filename all_groups age_labels = Some rep ->
    5 # 100 <= rep_p_value rep ->
    posthoc_table rep = None.
Proof.
  intros f_oneway title subtitle filename all_groups age_labels rep Hrep Hp.
  unfold create_anova_report in Hrep.
  destruct (manual_anova all_groups) as [a|]; [|discriminate].
  destruct (f_oneway all_groups) as [F p].
  destruct (label_rows all_groups age_labels) as [rows|]; [|discriminate].
  destruct (Qlt_le_dec p (5 # 100)) as [Hlt|Hge].
  - destruct (np_array_flatten rows) as [labels|]; [|discriminate].
    destruct (pairwise_tukeyhsd (concat all_groups) labels); [|discriminate].
    injection Hrep as <-. simpl in Hp. exfalso. exact (Qlt_not_le _ _ Hlt Hp).
  - injection Hrep as <-. reflexivity.
Qed.

(** On the three equal-size groups of the ANOVA example, a significant
    [p_value] yields one post-hoc row per pair: three. *)
Lemma create_anova_report_example_three_pairs :
  forall f_oneway,
    snd (f_oneway [[327#100; 347#100; 353#100; 327#100; 36#10];
                   [3; 367#100; 266#100; 266#100; 266#100];
                   [367#100; 38#10; 367#100; 333#100; 367#100]]%Q) < 5 # 100 ->
    option_map posthoc_table
      (create_anova_report f_oneway "ANOVA ANALYSIS RESULTS" "" "ANOVA_Results.docx"
         [[327#100; 347#100; 353#100; 327#100; 36#10];
          [3; 367#100; 266#100; 266#100; 266#100];
          [367#100; 38#10; 367#100; 333#100; 367#100]]%Q
         ["Below 25"; "25-29"; "30-34"])
    = Some (Some [("25-29", "30-34"); ("25-29", "Below 25"); ("30-34", "Below 25")]).
Proof.
  intros f_oneway Hp.
  unfold create_anova_report.
  destruct (f_oneway _) as [F p]. simpl in Hp.
  cbn [manual_anova].
  destruct (Qlt_le_dec p (5 # 100)) as [_|Hge];
    [vm_compute; reflexivity | exfalso; exact (Qlt_not_le _ _ Hp Hge)].
Qed.

(** C6 (the code misses it): with groups of unequal sizes and a significant
    [p_value], [create_anova_report] of [ANOVA1.py] raises while building the
    post-hoc labels ([np.array] on a ragged nested list) and produces no
    post-hoc table at all, instead of one row per pair of groups. *)
Theorem create_anova_report_unequal_sizes_raise :
  forall f_oneway : list (list Q) -> Q * Q,
    snd (f_oneway [[1; 11#10]; [5; 51#10; 52#10]; [9; 91#10]]%Q) < 5 # 100 ->
    create_anova_report f_oneway "ANOVA ANALYSIS RESULTS" "" "ANOVA_Results.docx"
      [[1; 11#10]; [5; 51#10; 52#10]; [9; 91#10]]%Q
      ["Below 25"; "25-29"; "30-34"] = None.
Proof.
  intros f_oneway Hp.
  unfold create_anova_report.
  destruct (f_oneway _) as [F p]. simpl in Hp.
  cbn [manual_anova].
  destruct (Qlt_le_dec p (5 # 100)) as [_|Hge];
    [vm_compute; reflexivity | exfalso; exact (Qlt_not_le _ _ Hp Hge)].
Qed.

(** Witness of [create_anova_report_unequal_sizes_raise]. *)
Lemma create_anova_report_unequal_sizes_raise_witness :
  create_anova_report (fun _ => (500, 1 # 1000000)) "ANOVA ANALYSIS RESULTS" ""
    "ANOVA_Results.docx" [[1; 11#10]; [5; 51#10; 52#10]; [9; 91#10]]%Q
    ["Below 25"; "25-29"; "30-34"] = None.
Proof.
  apply (create_anova_report_unequal_sizes_raise (fun _ => (500, 1 # 1000000))).
  vm_compute. reflexivity.
Defined.

End PostHocFacts.

Module WelchFacts.
Import Num Py WelchTTest.

Lemma pydiv_ok : forall x y, Qeq_bool y 0 = false -> pydiv x y = Ok (x / y).
Proof. intros x y H. unfold pydiv. rewrite H. reflexivity. Qed.

Lemma qeq_bool_count_ge2 : forall n : nat, (2 <= n)%nat ->
  Qeq_bool (inject_Z (Z.of_nat n)) 0 = false /\
  Qeq_bool (inject_Z (Z.of_nat n) - 1) 0 = false.
Proof.
  intros n Hn. split; apply not_true_iff_false; intros H; apply Qeq_bool_iff in H;
    unfold Qeq, Qminus, Qplus, Qopp in H; simpl in H; lia.
Qed.

Lemma Qdiv_pos_zero : forall x c, 0 < c -> x / c == 0 -> x == 0.
Proof.
  intros x c Hc H.
  assert (Hx : x == x / c * c) by (field; intros E; rewrite E in Hc; discriminate).
  rewrite Hx, H. ring.
Qed.

Lemma Qsqr_zero : forall x, x ^ 2 == 0 -> x == 0.
Proof.
  intros x H. assert (Hs : x ^ 2 == x * x) by (simpl; ring).
  rewrite Hs in H. destruct (Qmult_integral _ _ H); assumption.
Qed.

(** The Welch denominator vanishes exactly when both variances do. *)
Lemma welch_denominator_zero : forall v1 v2 q1 q2,
  0 < q1 -> 0 < q2 -> 0 < q1 - 1 -> 0 < q2 - 1 ->
  ((v1 / q1) ^ 2 / (q1 - 1) + (v2 / q2) ^ 2 / (q2 - 1) == 0 <-> v1 == 0 /\ v2 == 0).
Proof.
  intros v1 v2 q1 q2 H1 H2 H1' H2'.
  assert (Hb1 : 0 <= (v1 / q1) ^ 2 / (q1 - 1))
    by (apply Qle_shift_div_l; [exact H1'|]; rewrite Qmult_0_l; apply Qsqr_nonneg).
  assert (Hb2 : 0 <= (v2 / q2) ^ 2 / (q2 - 1))
    by (apply Qle_shift_div_l; [exact H2'|]; rewrite Qmult_0_l; apply Qsqr_nonneg).
  split.
  - intros H.
    assert (B : (v1 / q1) ^ 2 / (q1 - 1) == 0 /\ (v2 / q2) ^ 2 / (q2 - 1) == 0).
    { revert H Hb1 Hb2.
      generalize ((v1 / q1) ^ 2 / (q1 - 1)) ((v2 / q2) ^ 2 / (q2 - 1)).
      intros b1 b2 H Hb1 Hb2. split; lra. }
    destruct B as [B1 B2].
    split.
    + apply (Qdiv_pos_zero v1 q1 H1), Qsqr_zero, (Qdiv_pos_zero _ (q1 - 1) H1'), B1.
    + apply (Qdiv_pos_zero v2 q2 H2), Qsqr_zero, (Qdiv_pos_zero _ (q2 - 1) H2'), B2.
  - intros [E1 E2]. rewrite E1, E2. unfold Qdiv. simpl. ring.
Qed.

Lemma count_pos : forall n : nat, (2 <= n)%nat ->
  0 < inject_Z (Z.of_nat n) /\ 0 < inject_Z (Z.of_nat n) - 1.
Proof.
  intros n Hn. unfold Qlt, Qminus, Qplus, Qopp; simpl; lia.
Qed.

Lemma qsum_repeat : forall v m,
  qsum (repeat v m) == inject_Z (Z.of_nat m) * v.
Proof.
  intros v m. induction m as [|m IH].
  - reflexivity.
  - change (qsum (repeat v (S m))) with (v + qsum (repeat v m)).
    rewrite IH, Nat2Z.inj_succ, <- Z.add_1_r, inject_Z_plus. ring.
Qed.

Lemma qsum_sq_dev_repeat : forall v c m,
  c == v -> qsum (map (fun x => (x - c) ^ 2) (repeat v m)) == 0.
Proof.
  intros v c m Hc. induction m as [|m IH].
  - reflexivity.
  - change (qsum (map (fun x => (x - c) ^ 2) (repeat v (S m))))
      with ((v - c) ^ 2 + qsum (map (fun x => (x - c) ^ 2) (repeat v m))).
    rewrite IH, Hc. simpl. ring.
Qed.

(** What [compute_ttest] does with two samples of at least 2 observations
    each, read off the chain of divisions: it raises exactly when the Welch
    denominator is 0, and otherwise stores the means and [df]. *)
Lemma compute_ttest_shape :
  forall (ttest_ind : list Q -> list Q -> Q * Q) (g1 g2 : list Q),
    (2 <= length g1)%nat -> (2 <= length g2)%nat ->
    let n1 := inject_Z (Z.of_nat (length g1)) in
    let n2 := inject_Z (Z.of_nat (length g2)) in
    let var1 := qsum (map (fun x => (x - qmean g1) ^ 2) g1) / (n1 - 1) in
    let var2 := qsum (map (fun x => (x - qmean g2) ^ 2) g2) / (n2 - 1) in
    let den := (var1 / n1) ^ 2 / (n1 - 1) + (var2 / n2) ^ 2 / (n2 - 1) in
    (den == 0 ->
       compute_ttest ttest_ind g1 g2
         = ShowError "Error" "An error occurred: float division by zero") /\
    (forall r, compute_ttest ttest_ind g1 g2 = Results r ->
       mean1 r = qmean g1 /\ mean2 r = qmean g2 /\
       df r = (var1 / n1 + var2 / n2) ^ 2 / den).
Proof.
  intros ttest_ind g1 g2 H1 H2 n1 n2 var1 var2 den.
  destruct (qeq_bool_count_ge2 _ H1) as [Z1 Z1'].
  destruct (qeq_bool_count_ge2 _ H2) as [Z2 Z2'].
  assert (L1 : Nat.eqb (length g1) 0 = false) by (apply Nat.eqb_neq; lia).
  assert (L2 : Nat.eqb (length g2) 0 = false) by (apply Nat.eqb_neq; lia).
  assert (M1 : Nat.ltb (length g1) 2 = false) by (apply Nat.ltb_ge; lia).
  assert (M2 : Nat.ltb (length g2) 2 = false) by (apply Nat.ltb_ge; lia).
  unfold compute_ttest, compute_ttest_body.
  rewrite L1, L2, M1, M2; cbn [orb].
  unfold pydiv.
  rewrite Z1, Z2, Z1', Z2'.
  destruct (ttest_ind g1 g2) as [t p].
  cbn [py_bind].
  fold n1 n2. fold (qmean g1) (qmean g2). fold var1 var2.
  split.
  - intros Hz.
    match goal with
    | |- context [Qeq_bool ?d 0] =>
        assert (E : Qeq_bool d 0 = true) by (apply Qeq_bool_iff; exact Hz); rewrite E
    end.
    reflexivity.
  - intros r.
    match goal with |- context [Qeq_bool ?d 0] => destruct (Qeq_bool d 0) end;
      [discriminate|].
    cbn [py_bind]. intros H. injection H as <-. repeat split.
Qed.

(** C8 refuted: for two constant samples of integers ([1, 1] and [2, 2])
    the Welch denominator is [0], Python raises [ZeroDivisionError], and
    the app shows an error dialog instead of returning a [df]. *)
Lemma compute_ttest_constant_samples_counterexample :
  compute_ttest (fun _ _ => (0, 1)) [1; 1] [2; 2]
    = ShowError "Error" "An error occurred: float division by zero".
Proof. vm_compute. reflexivity. Qed.

(** C8 as amended.  (1) Whenever [compute_ttest] stores results, both
    samples have at least 2 observations, and with the Bessel-corrected
    variances [var1 = sum((x - mean1)^2)/(n1 - 1)] and [var2] the stored
    [df] is the Welch-Satterthwaite
    [(var1/n1 + var2/n2)^2 / ((var1/n1)^2/(n1-1) + (var2/n2)^2/(n2-1))].
    (2) The denominator is not guarded: two constant samples of integers
    [k1] (n1 times) and [k2] (n2 times), [n1, n2 >= 2], make the division
    raise [ZeroDivisionError], and the app shows "An error occurred: float
    division by zero".  (The bounds [|k| * n <= 2^53] keep every partial
    sum an exact double, so the float mean is exactly [k] and the float
    variance exactly 0, as in the model.)  (3) [df] is in general no
    integer: for [1, 2, 4] and [2, 2, 7] it lies strictly between 3
    and 4. *)
Theorem compute_ttest_welch_df :
  forall ttest_ind : list Q -> list Q -> Q * Q,
    (forall (g1 g2 : list Q) r,
       compute_ttest ttest_ind g1 g2 = Results r ->
       let n1 := inject_Z (Z.of_nat (length g1)) in
       let n2 := inject_Z (Z.of_nat (length g2)) in
       let var1 := qsum (map (fun x => (x - qmean g1) ^ 2) g1) / (n1 - 1) in
       let var2 := qsum (map (fun x => (x - qmean g2) ^ 2) g2) / (n2 - 1) in
       (2 <= length g1)%nat /\ (2 <= length g2)%nat /\
       mean1 r = qmean g1 /\ mean2 r = qmean g2 /\
       df r = (var1 / n1 + var2 / n2) ^ 2 /
              ((var1 / n1) ^ 2 / (n1 - 1) + (var2 / n2) ^ 2 / (n2 - 1))) /\
    (forall (k1 k2 : Z) (m1 m2 : nat),
       (2 <= m1)%nat -> (2 <= m2)%nat ->
       (Z.abs k1 * Z.of_nat m1 <= 2 ^ 53)%Z -> (Z.abs k2 * Z.of_nat m2 <= 2 ^ 53)%Z ->
       compute_ttest ttest_ind (repeat (inject_Z k1) m1) (repeat (inject_Z k2) m2)
         = ShowError "Error" "An error occurred: float division by zero") /\
    (exists r, compute_ttest ttest_ind [1; 2; 4] [2; 2; 7] = Results r /\
       inject_Z 3 < df r /\ df r < inject_Z 4).
Proof.
  intros ttest_ind. split; [|split].
  - intros g1 g2 r H n1 n2 var1 var2.
    assert (Hl : (2 <= length g1)%nat /\ (2 <= length g2)%nat).
    { unfold compute_ttest, compute_ttest_body in H.
      destruct (Nat.eqb (length g1) 0) eqn:E1; [discriminate|].
      destruct (Nat.eqb (length g2) 0) eqn:E2; [discriminate|].
      destruct (Nat.ltb (length g1) 2) eqn:F1; [discriminate|].
      destruct (Nat.ltb (length g2) 2) eqn:F2; [discriminate|].
      apply Nat.ltb_ge in F1, F2. lia. }
    destruct Hl as [H1 H2].
    destruct (proj2 (compute_ttest_shape ttest_ind g1 g2 H1 H2) r H) as [Hm1 [Hm2 Hdf]].
    repeat split; assumption.
  - intros k1 k2 m1 m2 H1 H2 _ _.
    assert (R1 : length (repeat (inject_Z k1) m1) = m1) by apply repeat_length.
    assert (R2 : length (repeat (inject_Z k2) m2) = m2) by apply repeat_length.
    apply (compute_ttest_shape ttest_ind);
      try (rewrite R1 || rewrite R2; assumption).
    destruct (count_pos _ H1) as [P1 P1'].
    destruct (count_pos _ H2) as [P2 P2'].
    rewrite R1, R2.
    apply (proj2 (welch_denominator_zero _ _ _ _ P1 P2 P1' P2')).
    split.
    + assert (Hm : qmean (repeat (inject_Z k1) m1) == inject_Z k1).
      { unfold qmean. rewrite R1, qsum_repeat. field.
        intros E. rewrite E in P1. discriminate. }
      rewrite (qsum_sq_dev_repeat _ _ _ Hm). unfold Qdiv. ring.
    + assert (Hm : qmean (repeat (inject_Z k2) m2) == inject_Z k2).
      { unfold qmean. rewrite R2, qsum_repeat. field.
        intros E. rewrite E in P2. discriminate. }
      rewrite (qsum_sq_dev_repeat _ _ _ Hm). unfold Qdiv. ring.
  - unfold compute_ttest, compute_ttest_body.
    destruct (ttest_ind [1; 2; 4] [2; 2; 7]) as [t p].
    eexists; split; [vm_compute; reflexivity|].
    split; vm_compute; reflexivity.
Qed.

(** Witness of [compute_ttest_welch_df]: the constant integer samples
    [1, 1] and [2, 2]. *)
Lemma compute_ttest_welch_df_witness :
  compute_ttest (fun _ _ => (0, 1)) (repeat (inject_Z 1) 2) (repeat (inject_Z 2) 2)
    = ShowError "Error" "An error occurred: float division by zero".
Proof.
  apply (proj1 (proj2 (compute_ttest_welch_df (fun _ _ => (0, 1))))).
  - lia.
  - lia.
  - vm_compute. discriminate.
  - vm_compute. discriminate.
Defined.

End WelchFacts.

Module WeightedMeanFacts.
Import Py WeightedMean.

(** For non-negative frequencies with at least one respondent the ratio
    lies between 1 and 4. *)
Lemma weighted_ratio_bounds : forall f4 f3 f2 f1 : Z,
  (0 <= f4)%Z -> (0 <= f3)%Z -> (0 <= f2)%Z -> (0 <= f1)%Z ->
  (0 < f4 + f3 + f2 + f1)%Z ->
  1 <= inject_Z (4 * f4 + 3 * f3 + 2 * f2 + 1 * f1) / inject_Z (f4 + f3 + f2 + f1) <= 4.
Proof.
  intros f4 f3 f2 f1 H4 H3 H2 H1 Ht.
  assert (Hpos : 0 < inject_Z (f4 + f3 + f2 + f1))
    by (change 0 with (inject_Z 0); rewrite <- Zlt_Qlt; exact Ht).
  split.
  - apply Qle_shift_div_l; [exact Hpos|].
    rewrite Qmult_1_l. rewrite <- Zle_Qle. lia.
  - apply Qle_shift_div_r; [exact Hpos|].
    change 4 with (inject_Z 4). rewrite <- inject_Z_mult, <- Zle_Qle. lia.
Qed.

Lemma float_overflow_bound_gt_4 : 4 < float_overflow_bound.
Proof. vm_compute. reflexivity. Qed.

(** C10 refuted: with [f4 = 10^400], [f3 = 1 - 10^400] and [f2 = f1 = 0]
    the total is 1 and the weighted sum is [10^400 + 3];
    [(10**400 + 3) / 1] is too large for a float and Python raises
    [OverflowError] instead of returning the ratio. *)
Lemma weighted_mean_overflow_counterexample :
  weighted_mean (10 ^ 400) (1 - 10 ^ 400) 0 0 = Raise OverflowError.
Proof. vm_compute. reflexivity. Qed.

(** C10 as amended: [weighted_mean] never divides by zero.  When
    [f1 + f2 + f3 + f4 = 0] it reports that the mean cannot be computed;
    otherwise it computes the true division
    [(4*f4 + 3*f3 + 2*f2 + 1*f1) / (f4 + f3 + f2 + f1)] of the two ints,
    which yields the ratio when its magnitude is below [2^1024 - 2^970] and
    raises [OverflowError] (the quotient rounds to [inf]) otherwise.  It
    never raises [ZeroDivisionError], and for non-negative frequencies it
    raises nothing. *)
Theorem weighted_mean_guarded :
  forall f4 f3 f2 f1 : Z,
    let weighted_sum := (4 * f4 + 3 * f3 + 2 * f2 + 1 * f1)%Z in
    let total_f := (f4 + f3 + f2 + f1)%Z in
    let ratio := inject_Z weighted_sum / inject_Z total_f in
    (total_f = 0%Z -> weighted_mean f4 f3 f2 f1 = Ok NoRespondents) /\
    (total_f <> 0%Z -> Qabs ratio < float_overflow_bound ->
       weighted_mean f4 f3 f2 f1 = Ok (Mean ratio)) /\
    (total_f <> 0%Z -> float_overflow_bound <= Qabs ratio ->
       weighted_mean f4 f3 f2 f1 = Raise OverflowError) /\
    weighted_mean f4 f3 f2 f1 <> Raise ZeroDivisionError /\
    ((0 <= f4)%Z -> (0 <= f3)%Z -> (0 <= f2)%Z -> (0 <= f1)%Z ->
       forall e, weighted_mean f4 f3 f2 f1 <> Raise e).
Proof.
  intros f4 f3 f2 f1 weighted_sum total_f ratio.
  unfold weighted_mean, int_truediv. fold weighted_sum total_f ratio.
  destruct (Z.eqb_spec total_f 0) as [E|E].
  - split; [reflexivity|]. split; [contradiction|]. split; [contradiction|].
    split; [discriminate|]. intros; discriminate.
  - destruct (Qle_bool float_overflow_bound (Qabs ratio)) eqn:O.
    + apply Qle_bool_iff in O. split; [contradiction|].
      split; [intros _ H; exfalso; apply (Qlt_not_le _ _ H O)|].
      split; [intros _ _; reflexivity|]. split; [discriminate|].
      intros H4 H3 H2 H1. exfalso.
      assert (Ht : (0 < total_f)%Z) by (unfold total_f in *; lia).
      destruct (weighted_ratio_bounds f4 f3 f2 f1 H4 H3 H2 H1 Ht) as [Lo Hi].
      fold weighted_sum total_f ratio in Lo, Hi.
      rewrite Qabs_pos in O by lra.
      pose proof float_overflow_bound_gt_4. lra.
    + split; [contradiction|].
      split; [intros _ _; reflexivity|].
      split; [intros _ H; apply Qle_bool_iff in H; congruence|].
      split; [discriminate|]. intros; discriminate.
Qed.

(** Witness of [weighted_mean_guarded], with frequencies 1, 2, 3, 4 for the
    ratings 4, 3, 2, 1. *)
Lemma weighted_mean_guarded_witness :
  weighted_mean 1 2 3 4 = Ok (Mean (inject_Z 20 / inject_Z 10)).
Proof.
  apply (proj1 (proj2 (weighted_mean_guarded 1 2 3 4))).
  - discriminate.
  - vm_compute. reflexivity.
Defined.

End WeightedMeanFacts.

Module CorrelationFacts.
Import Num StatsUtils PyFloat ExcelUtils.

Section Loop.
Variable t_ppf : Q -> Z -> R.
Variable pearsonr : list Q -> list Q -> option (R * R).
Variable series_std : list Q -> pyfloat.

Lemma Rgtb_true : forall a b, Rgtb a b = true <-> (b < a)%R.
Proof.
  intros a b. unfold Rgtb. destruct (Rlt_dec b a); split; auto; discriminate.
Qed.

(** What a positive validation establishes: the message is empty, the two
    labels differ, and the cleaned pair has at least 3 rows and a
    nonzero [std()] in both columns. *)
Lemma validate_true_spec : forall df c1 c2 msg,
  validate_columns_for_correlation series_std df c1 c2 = Some (true, msg) ->
  msg = "" /\ c1 <> c2 /\
  (3 <= length (clean_data df c1 c2))%nat /\
  eq_c (series_std (map fst (clean_data df c1 c2))) 0 = false /\
  eq_c (series_std (map snd (clean_data df c1 c2))) 0 = false.
Proof.
  intros df c1 c2 msg H. unfold validate_columns_for_correlation in H.
  unfold clean_data.
  destruct (get_column df c1) as [col1|]; [|discriminate].
  destruct (get_column df c2) as [col2|]; [|discriminate].
  destruct (negb (cnumeric col1)); [discriminate|].
  destruct (negb (cnumeric col2)); [discriminate|].
  destruct (Nat.ltb _ 3) eqn:Hl; [discriminate|].
  destruct (String.eqb_spec c1 c2) as [E|E]; [discriminate|].
  destruct (eq_c (series_std (map fst _)) 0) eqn:S1; [discriminate|].
  destruct (eq_c (series_std (map snd _)) 0) eqn:S2; [discriminate|].
  injection H as <-. apply Nat.ltb_ge in Hl. auto.
Qed.

Lemma collect_pairs_sound : forall df alpha tt ps res,
  In res (collect_pairs t_ppf pearsonr series_std df alpha tt ps) ->
  exists p, In p ps /\ pair_result t_ppf pearsonr series_std df alpha tt p = Some res.
Proof.
  intros df alpha tt ps res. induction ps as [|p ps IH]; simpl; [tauto|].
  destruct (pair_result t_ppf pearsonr series_std df alpha tt p) as [r|] eqn:E.
  - intros [<-|H]; [exists p; auto|].
    destruct (IH H) as [q [Hq Hr]]; exists q; auto.
  - intros H. destruct (IH H) as [q [Hq Hr]]; exists q; auto.
Qed.

Lemma collect_pairs_complete : forall df alpha tt ps p r,
  In p ps -> pair_result t_ppf pearsonr series_std df alpha tt p = Some r ->
  In r (collect_pairs t_ppf pearsonr series_std df alpha tt ps).
Proof.
  intros df alpha tt ps p r. induction ps as [|q ps IH]; simpl; [tauto|].
  intros [<-|H] Hp.
  - rewrite Hp. left; reflexivity.
  - destruct (pair_result t_ppf pearsonr series_std df alpha tt q); [right|]; auto.
Qed.

(** What one loop iteration yields when it does not [continue]. *)
Lemma pair_result_spec : forall df alpha tt c1 c2 res,
  pair_result t_ppf pearsonr series_std df alpha tt (c1, c2) = Some res ->
  validate_columns_for_correlation series_std df c1 c2 = Some (true, "") /\
  res_column_1 res = c1 /\ res_column_2 res = c2 /\
  is_significant res = Rgtb (Rabs (r_value res)) (res_r_critical res) /\
  res_r_critical res =
    r_critical (compute_pearson_r_critical t_ppf (res_sample_size res) alpha tt) /\
  res_alpha res = alpha /\ res_test_type res = tt /\
  significance_interpretation res = None.
Proof.
  intros df alpha tt c1 c2 res. unfold pair_result.
  destruct (validate_columns_for_correlation series_std df c1 c2) as [[ok msg]|] eqn:Hv;
    [|discriminate].
  destruct ok; simpl; [|discriminate].
  destruct (validate_true_spec _ _ _ _ Hv) as [-> _].
  unfold compute_correlation_from_data.
  destruct (has_column df c1 && has_column df c2); [|discriminate].
  destruct (pearsonr _ _) as [[r p]|]; [|discriminate].
  intros H; injection H as <-. simpl. repeat split; reflexivity.
Qed.

Lemma get_all_correlation_pairs_sound : forall df alpha tt res,
  In res (get_all_correlation_pairs t_ppf pearsonr series_std df alpha tt) ->
  exists c1 c2, In (c1, c2) (combinations2 (get_numeric_columns df)) /\
    pair_result t_ppf pearsonr series_std df alpha tt (c1, c2) = Some res.
Proof.
  intros df alpha tt res. unfold get_all_correlation_pairs.
  destruct (Nat.ltb _ 2); [simpl; tauto|].
  intros H. destruct (collect_pairs_sound _ _ _ _ _ H) as [[c1 c2] [Hin Hp]].
  exists c1, c2. auto.
Qed.

End Loop.

Lemma combinations2_nth : forall {A} (l : list A) i j x y,
  (i < j)%nat -> nth_error l i = Some x -> nth_error l j = Some y ->
  In (x, y) (combinations2 l).
Proof.
  intros A l. induction l as [|a l IH]; intros i j x y Hij Hi Hj.
  - destruct i; discriminate.
  - simpl. apply in_or_app.
    destruct i as [|i]; destruct j as [|j]; simpl in Hi, Hj; try lia.
    + left. injection Hi as <-. apply in_map. eapply nth_error_In; eassumption.
    + right. apply (IH i j); auto; lia.
Qed.

(** C5: every record of the single-pair analysis and of the all-pairs
    analysis has [is_significant = true] exactly when
    [|r_value| > r_critical], where [r_critical] is the critical value
    computed for the record's sample size, the given alpha and the given tail
    mode. *)
Theorem correlation_significance_rule :
  forall (t_ppf : Q -> Z -> R) (pearsonr : list Q -> list Q -> option (R * R))
         (pd_read_excel : string -> read_outcome) (series_std : list Q -> pyfloat)
         (py_format : R -> string -> string),
    (forall df alpha tt res,
       In res (get_all_correlation_pairs t_ppf pearsonr series_std df alpha tt) ->
       (is_significant res = true <-> (res_r_critical res < Rabs (r_value res))%R) /\
       res_r_critical res =
         r_critical (compute_pearson_r_critical t_ppf (res_sample_size res) alpha tt) /\
       res_alpha res = alpha /\ res_test_type res = tt) /\
    (forall filepath col1 col2 alpha tt ok err res,
       analyze_excel_correlation t_ppf pearsonr pd_read_excel series_std py_format
         filepath col1 col2 alpha tt = Some (ok, Some res, err) ->
       (is_significant res = true <-> (res_r_critical res < Rabs (r_value res))%R) /\
       res_r_critical res =
         r_critical (compute_pearson_r_critical t_ppf (res_sample_size res) alpha tt) /\
       res_alpha res = alpha /\ res_test_type res = tt).
Proof.
  intros t_ppf pearsonr pd_read_excel series_std py_format. split.
  - intros df alpha tt res Hin.
    destruct (get_all_correlation_pairs_sound _ _ _ _ _ _ _ Hin) as [c1 [c2 [_ Hp]]].
    destruct (pair_result_spec _ _ _ _ _ _ _ _ _ Hp) as [_ [_ [_ [Hs [Hr [Ha [Ht _]]]]]]].
    rewrite Hs, Rgtb_true. split; [tauto|]. auto.
  - intros filepath col1 col2 alpha tt ok err res H.
    unfold analyze_excel_correlation in H.
    destruct (read_excel_file pd_read_excel filepath) as [[[|] [df|]] e];
      try discriminate.
    destruct (validate_columns_for_correlation series_std df col1 col2) as [[[|] msg]|];
      simpl in H; try discriminate.
    destruct (compute_correlation_from_data pearsonr df col1 col2) as [corr|];
      [|discriminate].
    injection H as _ <- _. simpl.
    rewrite Rgtb_true. split; [tauto|]. auto.
Qed.

(** C7 refuted: a column of three copies of the double [0.1] is constant,
    yet pandas' [std()] of it, evaluated in IEEE doubles, is
    [5515760546423086 * 2^-108] (about [1.7e-17]), not [0.0]: the sum
    [0.1 + 0.1 + 0.1] rounds to [0.30000000000000004] and its third to
    [0.1 + 2^-56].  The zero-variance test passes, no exception is raised
    ([pearsonr] returns [nan] with a warning), and the pair of that column
    with [y] is kept in the output. *)
Lemma get_all_correlation_pairs_constant_column_counterexample :
  Double.series_std_short [3602879701896397 # 36028797018963968;
                           3602879701896397 # 36028797018963968;
                           3602879701896397 # 36028797018963968]
    = Finite (5515760546423086 # Pos.pow 2 108) /\
  exists res,
    In res (get_all_correlation_pairs (fun _ _ => 2%R) (fun _ _ => Some (0%R, 1%R))
              Double.series_std_short
              [ {| cname := "c"; cnumeric := true;
                   cvalues := [Some (3602879701896397 # 36028797018963968);
                               Some (3602879701896397 # 36028797018963968);
                               Some (3602879701896397 # 36028797018963968)] |};
                {| cname := "y"; cnumeric := true; cvalues := [Some 1; Some 2; Some 3]%Q |} ]
              (5 # 100) "two-tailed") /\
    res_column_1 res = "c" /\ res_column_2 res = "y".
Proof.
  split; [vm_compute; reflexivity|].
  eexists; split; [vm_compute; left; reflexivity|].
  split; reflexivity.
Qed.

(** C7 as amended: [get_all_correlation_pairs] is a total function (the
    loop swallows every failure with [continue]).  It visits every
    unordered pair of numeric columns and returns the record of every pair
    whose iteration succeeds; every record comes from a pair that passed
    [validate_columns_for_correlation], with two different labels, at least
    3 complete rows and a [std()] other than [0.0] in both columns; a pair
    that fails validation, or whose validation raises, is left out. *)
Theorem get_all_correlation_pairs_skips_invalid :
  forall (t_ppf : Q -> Z -> R) (pearsonr : list Q -> list Q -> option (R * R))
         (series_std : list Q -> pyfloat) (df : DataFrame) (alpha : Q) (tt : string),
    let out := get_all_correlation_pairs t_ppf pearsonr series_std df alpha tt in
    (forall res, In res out ->
       exists c1 c2, In (c1, c2) (combinations2 (get_numeric_columns df)) /\
         validate_columns_for_correlation series_std df c1 c2 = Some (true, "") /\
         res_column_1 res = c1 /\ res_column_2 res = c2 /\ c1 <> c2 /\
         (3 <= length (clean_data df c1 c2))%nat /\
         eq_c (series_std (map fst (clean_data df c1 c2))) 0 = false /\
         eq_c (series_std (map snd (clean_data df c1 c2))) 0 = false) /\
    (forall i j c1 c2 r, (i < j)%nat ->
       nth_error (get_numeric_columns df) i = Some c1 ->
       nth_error (get_numeric_columns df) j = Some c2 ->
       pair_result t_ppf pearsonr series_std df alpha tt (c1, c2) = Some r ->
       In r out) /\
    (forall c1 c2,
       validate_columns_for_correlation series_std df c1 c2 <> Some (true, "") ->
       forall res, In res out -> ~ (res_column_1 res = c1 /\ res_column_2 res = c2)).
Proof.
  intros t_ppf pearsonr series_std df alpha tt out. split; [|split].
  - intros res Hin.
    destruct (get_all_correlation_pairs_sound _ _ _ _ _ _ _ Hin) as [c1 [c2 [Hc Hp]]].
    destruct (pair_result_spec _ _ _ _ _ _ _ _ _ Hp) as [Hv [H1 [H2 _]]].
    destruct (validate_true_spec _ _ _ _ _ Hv) as [_ [Hne [H3 [S1 S2]]]].
    exists c1, c2. repeat split; assumption.
  - intros i j c1 c2 r Hij Hi Hj Hp.
    unfold out, get_all_correlation_pairs.
    assert (Hlen : (j < length (get_numeric_columns df))%nat).
    { apply nth_error_Some. rewrite Hj. discriminate. }
    assert (E : Nat.ltb (length (get_numeric_columns df)) 2 = false)
      by (apply Nat.ltb_ge; lia).
    rewrite E.
    eapply collect_pairs_complete; [|exact Hp].
    apply (combinations2_nth _ i j); assumption.
  - intros c1 c2 Hbad res Hin [E1 E2].
    destruct (get_all_correlation_pairs_sound _ _ _ _ _ _ _ Hin) as [d1 [d2 [_ Hp]]].
    destruct (pair_result_spec _ _ _ _ _ _ _ _ _ Hp) as [Hv [H1 [H2 _]]].
    apply Hbad. congruence.
Qed.

(** Witness of [correlation_significance_rule]: a frame with a partly
    missing column [x], a column [y], a constant column [z] and a text
    column yields one record, and the rule holds for it.  [std()] is
    pandas' value in doubles, [0.0] on the constant [z]. *)
Lemma correlation_significance_rule_witness :
  exists res,
    In res (get_all_correlation_pairs (fun _ _ => 2%R) (fun _ _ => Some (1%R, 0%R))
              Double.series_std_short
              [ {| cname := "x"; cnumeric := true; cvalues := [Some 1; Some 2; Some 3; None]%Q |};
      {| cname := "y"; cnumeric := true; cvalues := [Some 2; Some 3; Some 5; Some 8]%Q |};
      {| cname := "z"; cnumeric := true; cvalues := [Some 4; Some 4; Some 4; Some 4]%Q |};
      {| cname := "label"; cnumeric := false; cvalues := [None; None; None; None] |} ] (5 # 100) "two-tailed") /\
    (is_significant res = true <-> (res_r_critical res < Rabs (r_value res))%R).
Proof.
  eexists; split.
  - vm_compute. left. reflexivity.
  - apply (proj1 (correlation_significance_rule (fun _ _ => 2%R)
                    (fun _ _ => Some (1%R, 0%R)) (fun _ => ReadFileNotFound)
                    Double.series_std_short
                    (fun _ _ => ""))
             [ {| cname := "x"; cnumeric := true; cvalues := [Some 1; Some 2; Some 3; None]%Q |};
      {| cname := "y"; cnumeric := true; cvalues := [Some 2; Some 3; Some 5; Some 8]%Q |};
      {| cname := "z"; cnumeric := true; cvalues := [Some 4; Some 4; Some 4; Some 4]%Q |};
      {| cname := "label"; cnumeric := false; cvalues := [None; None; None; None] |} ] (5 # 100) "two-tailed").
    vm_compute. left. reflexivity.
Defined.

(** Witness of [get_all_correlation_pairs_skips_invalid] on the same frame:
    one pair survives, and the pair [(x, z)], which fails validation on the
    constant [z], is not among the results. *)
Lemma get_all_correlation_pairs_skips_invalid_witness :
  List.length (get_all_correlation_pairs (fun _ _ => 2%R) (fun _ _ => Some (1%R, 0%R))
                 Double.series_std_short
                 [ {| cname := "x"; cnumeric := true; cvalues := [Some 1; Some 2; Some 3; None]%Q |};
      {| cname := "y"; cnumeric := true; cvalues := [Some 2; Some 3; Some 5; Some 8]%Q |};
      {| cname := "z"; cnumeric := true; cvalues := [Some 4; Some 4; Some 4; Some 4]%Q |};
      {| cname := "label"; cnumeric := false; cvalues := [None; None; None; None] |} ] (5 # 100) "two-tailed") = 1%nat /\
  forall res,
    In res (get_all_correlation_pairs (fun _ _ => 2%R) (fun _ _ => Some (1%R, 0%R))
              Double.series_std_short
              [ {| cname := "x"; cnumeric := true; cvalues := [Some 1; Some 2; Some 3; None]%Q |};
      {| cname := "y"; cnumeric := true; cvalues := [Some 2; Some 3; Some 5; Some 8]%Q |};
      {| cname := "z"; cnumeric := true; cvalues := [Some 4; Some 4; Some 4; Some 4]%Q |};
      {| cname := "label"; cnumeric := false; cvalues := [None; None; None; None] |} ] (5 # 100) "two-tailed") ->
    ~ (res_column_1 res = "x" /\ res_column_2 res = "z").
Proof.
  split; [vm_compute; reflexivity|].
  apply (proj2 (proj2 (get_all_correlation_pairs_skips_invalid (fun _ _ => 2%R)
                         (fun _ _ => Some (1%R, 0%R))
                         Double.series_std_short
                         [ {| cname := "x"; cnumeric := true; cvalues := [Some 1; Some 2; Some 3; None]%Q |};
      {| cname := "y"; cnumeric := true; cvalues := [Some 2; Some 3; Some 5; Some 8]%Q |};
      {| cname := "z"; cnumeric := true; cvalues := [Some 4; Some 4; Some 4; Some 4]%Q |};
      {| cname := "label"; cnumeric := false; cvalues := [None; None; None; None] |} ] (5 # 100) "two-tailed"))
           "x" "z").
  vm_compute. discriminate.
Defined.

End CorrelationFacts.

(* ========================================================================= *)
(** * Further properties of the code

    The properties below go beyond the specification's claims: edge and
    error behaviour of the validators, invariants of the computations, and
    how the pieces compose. *)

From Stdlib Require Import Qminmax Sorted.

(* ------------------------------------------------------------------------- *)
(** ** Sums over lists of rationals *)

Module SumFacts.
Import Num.












End SumFacts.

(* ------------------------------------------------------------------------- *)
(** ** stats_utils.py: the validators on every outcome of [float(...)] *)

Module PearsonAppFacts.
Import StatsUtils PyFloat PyFloatFacts.

(** [validate_sample_size] accepts exactly the finite whole numbers [>= 3]:
    a text that is no number, [inf], [-inf] and [nan] are all rejected
    (each with its own message); on finite values it is the rational
    validator [validate_sample_size]. *)
Theorem validate_sample_size_accepts :
  forall x : option pyfloat,
    (validate_sample_size_py x = (true, "") <->
       exists q, x = Some (Finite q) /\ 3 <= q /\ is_integer q = true) /\
    validate_sample_size_py None = (false, "Sample size must be a valid number") /\
    validate_sample_size_py (Some NaN) = (false, "Sample size must be a whole number") /\
    validate_sample_size_py (Some PosInf) = (false, "Sample size must be a whole number") /\
    validate_sample_size_py (Some NegInf) = (false, "Sample size must be at least 3") /\
    (forall q, validate_sample_size_py (Some (Finite q)) = validate_sample_size q).
Proof.
  intros x. split; [apply validate_sample_size_py_true|].
  repeat (split; [reflexivity|]).
  intros q. unfold validate_sample_size, validate_sample_size_py, lt_c, is_integer_f.
  destruct (Qlt_le_dec q 3) as [H|H].
  - assert (E : Qle_bool 3 q = false).
    { apply not_true_iff_false. intros E. apply Qle_bool_iff in E. lra. }
    rewrite E. reflexivity.
  - apply Qle_bool_iff in H. rewrite H. reflexivity.
Qed.

(** [validate_alpha] accepts the finite values in (0, 1) and also [nan]
    (the text "nan"): every comparison with [nan] is false, so neither
    [alpha <= 0] nor [alpha >= 1] holds.  [inf], [-inf] and a text that is
    no number are rejected. *)
Theorem validate_alpha_accepts_nan :
  forall x : option pyfloat,
    (validate_alpha_py x = (true, "") <->
       (exists q, x = Some (Finite q) /\ 0 < q /\ q < 1) \/ x = Some NaN) /\
    validate_alpha_py None = (false, "Alpha must be a valid number") /\
    (forall q, validate_alpha_py (Some (Finite q)) = validate_alpha q).
Proof.
  intros x. split; [apply validate_alpha_py_true|].
  split; reflexivity.
Qed.

End PearsonAppFacts.

(* ------------------------------------------------------------------------- *)
(** ** weighted_mean.py *)

Module WeightedMeanExtraFacts.
Import Py WeightedMean.

(** For non-negative frequencies with at least one respondent the weighted
    mean of the 4-point scale is computed and lies between 1 and 4. *)
Theorem weighted_mean_between_1_and_4 :
  forall f4 f3 f2 f1 : Z,
    (0 <= f4)%Z -> (0 <= f3)%Z -> (0 <= f2)%Z -> (0 <= f1)%Z ->
    (0 < f4 + f3 + f2 + f1)%Z ->
    exists w, weighted_mean f4 f3 f2 f1 = Ok (Mean w) /\ 1 <= w <= 4.
Proof.
  intros f4 f3 f2 f1 H4 H3 H2 H1 Ht.
  destruct (WeightedMeanFacts.weighted_ratio_bounds f4 f3 f2 f1 H4 H3 H2 H1 Ht)
    as [Lo Hi].
  pose proof WeightedMeanFacts.float_overflow_bound_gt_4 as Hb.
  unfold weighted_mean, int_truediv.
  assert (E : Z.eqb (f4 + f3 + f2 + f1) 0 = false) by (apply Z.eqb_neq; lia).
  rewrite E.
  destruct (Qle_bool float_overflow_bound
              (Qabs (inject_Z (4 * f4 + 3 * f3 + 2 * f2 + 1 * f1)
                     / inject_Z (f4 + f3 + f2 + f1)))) eqn:O.
  - apply Qle_bool_iff in O. rewrite Qabs_pos in O by lra. lra.
  - cbn [py_bind]. eexists; split; [reflexivity|]. split; assumption.
Qed.

(** Witness of [weighted_mean_between_1_and_4]: frequencies 1, 2, 3, 4. *)
Lemma weighted_mean_between_1_and_4_witness :
  exists w, weighted_mean 1 2 3 4 = Ok (Mean w) /\ 1 <= w <= 4.
Proof. apply weighted_mean_between_1_and_4; lia. Defined.

End WeightedMeanExtraFacts.

(* ------------------------------------------------------------------------- *)
(** ** t-test.py: the Welch degrees of freedom *)

Module WelchExtraFacts.
Import Num Py WelchTTest.





End WelchExtraFacts.

(* ------------------------------------------------------------------------- *)
(** ** anova.py and ANOVA1.py: [manual_anova] *)

Module AnovaExtraFacts.
Import Num Anova SumFacts.





End AnovaExtraFacts.

(* ------------------------------------------------------------------------- *)
(** ** ANOVA1.py: the post-hoc table for groups of equal size *)

Module PostHocExtraFacts.
Import Num Anova.

Lemma combinations2_length : forall {A} (l : list A),
  (2 * length (ExcelUtils.combinations2 l) = length l * (length l - 1))%nat.
Proof.
  intros A l. induction l as [|a l IH]; [reflexivity|].
  cbn [ExcelUtils.combinations2 length]. rewrite length_app, length_map.
  rewrite Nat.mul_add_distr_l, IH.
  destruct (length l) as [|m]; [reflexivity|].
  simpl Nat.sub. rewrite Nat.sub_0_r. nia.
Qed.
Lemma combinations2_in : forall {A} (l : list A) a b,
  In (a, b) (ExcelUtils.combinations2 l) -> NoDup l -> In a l /\ In b l /\ a <> b.
Proof.
  intros A l. induction l as [|x l IH]; intros a b H Hnd; [destruct H|].
  cbn [ExcelUtils.combinations2] in H. apply in_app_or in H.
  inversion Hnd as [|? ? Hx Hnd']; subst.
  destruct H as [H|H].
  - apply in_map_iff in H. destruct H as [y [E Hy]]. injection E as <- <-.
    split; [left; reflexivity|]. split; [right; exact Hy|].
    intros <-. contradiction.
  - destruct (IH a b H Hnd') as [Ha [Hb Hab]].
    split; [right; exact Ha|]. split; [right; exact Hb|exact Hab].
Qed.

(** Lexicographic order on strings is transitive. *)
Lemma string_compare_le_trans : forall s1 s2 s3,
  String.compare s1 s2 <> Gt -> String.compare s2 s3 <> Gt ->
  String.compare s1 s3 <> Gt.
Proof.
  induction s1 as [|a s1 IH]; intros [|b s2] [|c s3]; simpl; try congruence.
  unfold Ascii.compare.
  destruct (N.compare_spec (Ascii.N_of_ascii a) (Ascii.N_of_ascii b)) as [E1|E1|E1];
  destruct (N.compare_spec (Ascii.N_of_ascii b) (Ascii.N_of_ascii c)) as [E2|E2|E2];
    try congruence.
  - rewrite E1, E2, N.compare_refl. apply IH.
  - intros _ _. rewrite E1, (proj2 (N.compare_lt_iff _ _) E2). discriminate.
  - intros _ _. rewrite <- E2, (proj2 (N.compare_lt_iff _ _) E1). discriminate.
  - intros _ _. assert (E3 : (Ascii.N_of_ascii a < Ascii.N_of_ascii c)%N) by lia.
    rewrite (proj2 (N.compare_lt_iff _ _) E3). discriminate.
Qed.

Lemma str_le_trans : forall x y z, str_le x y -> str_le y z -> str_le x z.
Proof.
  unfold str_le, String.leb. intros x y z H1 H2.
  destruct (String.compare x y) eqn:E1; try discriminate;
  destruct (String.compare y z) eqn:E2; try discriminate;
  destruct (String.compare x z) eqn:E3; try reflexivity;
  exfalso; refine (string_compare_le_trans x y z _ _ E3); congruence.
Qed.

Lemma insert_sorted_in : forall x l z, In z (insert_sorted x l) <-> x = z \/ In z l.
Proof.
  intros x l z. induction l as [|y l IH]; simpl; [tauto|].
  destruct (String.leb x y); simpl; [tauto|]. rewrite IH. tauto.
Qed.

Lemma insert_sorted_sorted : forall x l,
  Sorted str_le l -> Sorted str_le (insert_sorted x l).
Proof.
  intros x l. induction l as [|y l IH]; intros Hs; simpl.
  - constructor; constructor.
  - destruct (String.leb x y) eqn:E.
    + constructor; [exact Hs|]. constructor. exact E.
    + apply Sorted_inv in Hs. destruct Hs as [Hs Hh].
      constructor; [apply IH; exact Hs|].
      assert (Hyx : str_le y x).
      { destruct (String.leb_total x y) as [H|H]; [congruence|exact H]. }
      destruct l as [|w l]; simpl.
      * constructor. exact Hyx.
      * destruct (String.leb x w); constructor; [exact Hyx|].
        inversion Hh; assumption.
Qed.

Lemma fold_insert_sorted : forall xs,
  Sorted str_le (fold_right insert_sorted [] xs) /\
  (forall z, In z (fold_right insert_sorted [] xs) <-> In z xs).
Proof.
  induction xs as [|x xs [IHs IHi]]; simpl; [split; [constructor|tauto]|].
  split; [apply insert_sorted_sorted; exact IHs|].
  intros z. rewrite insert_sorted_in, IHi. split; intros [H|H]; auto.
Qed.

Lemma dedup_sorted_in : forall l z, In z (dedup_sorted l) <-> In z l.
Proof.
  induction l as [|x l IH]; intros z; [simpl; tauto|].
  destruct l as [|y l']; [simpl; tauto|].
  change (dedup_sorted (x :: y :: l'))
    with (if String.eqb x y then dedup_sorted (y :: l')
          else x :: dedup_sorted (y :: l')).
  destruct (String.eqb_spec x y) as [<-|Hne].
  - rewrite IH. simpl. tauto.
  - simpl. rewrite IH. simpl. tauto.
Qed.

Lemma dedup_sorted_nodup : forall l, StronglySorted str_le l -> NoDup (dedup_sorted l).
Proof.
  induction l as [|x l IH]; intros Hs; [constructor|].
  destruct l as [|y l']; [constructor; [simpl; tauto|constructor]|].
  apply StronglySorted_inv in Hs. destruct Hs as [Hs Hx].
  change (dedup_sorted (x :: y :: l'))
    with (if String.eqb x y then dedup_sorted (y :: l')
          else x :: dedup_sorted (y :: l')).
  destruct (String.eqb_spec x y) as [<-|Hne]; [apply IH; exact Hs|].
  constructor; [|apply IH; exact Hs].
  rewrite dedup_sorted_in. intros Hin.
  rewrite Forall_forall in Hx.
  destruct Hin as [<-|Hin]; [apply Hne; reflexivity|].
  apply StronglySorted_inv in Hs. destruct Hs as [_ Hy].
  rewrite Forall_forall in Hy.
  apply Hne. apply String.leb_antisym.
  - apply Hx. left; reflexivity.
  - apply Hy. exact Hin.
Qed.

Lemma np_unique_spec : forall xs,
  NoDup (np_unique xs) /\ (forall z, In z (np_unique xs) <-> In z xs).
Proof.
  intros xs. destruct (fold_insert_sorted xs) as [Hs Hi]. unfold np_unique. split.
  - apply dedup_sorted_nodup. apply Sorted_StronglySorted; [|exact Hs].
    intros x y z. apply str_le_trans.
  - intros z. rewrite dedup_sorted_in. apply Hi.
Qed.

Lemma label_rows_some : forall gs ls, (length gs <= length ls)%nat ->
  exists rows, label_rows gs ls = Some rows.
Proof.
  induction gs as [|g gs IH]; intros ls Hl; [exists []; reflexivity|].
  destruct ls as [|l ls]; [simpl in Hl; lia|].
  simpl in Hl. destruct (IH ls) as [rows Hr]; [lia|].
  exists (repeat l (length g) :: rows). simpl. rewrite Hr. reflexivity.
Qed.

Lemma label_rows_props : forall m gs ls rows,
  label_rows gs ls = Some rows -> Forall (fun g => length g = S m) gs ->
  length rows = length gs /\
  Forall (fun r => length r = S m) rows /\
  length (concat rows) = length (concat gs) /\
  (forall z, In z (concat rows) <-> In z (firstn (length gs) ls)).
Proof.
  intros m. induction gs as [|g gs IH]; intros ls rows Hr Hf.
  - injection Hr as <-. simpl. repeat split; [constructor|tauto|tauto].
  - destruct ls as [|l ls]; [discriminate|].
    simpl in Hr. destruct (label_rows gs ls) as [rows'|] eqn:E; [|discriminate].
    injection Hr as <-. apply Forall_cons_iff in Hf. destruct Hf as [Hg Hf].
    destruct (IH ls rows' E Hf) as [H1 [H2 [H3 H4]]].
    simpl. rewrite !length_app, repeat_length, H1, H3.
    split; [reflexivity|]. split; [constructor; [rewrite repeat_length; exact Hg|exact H2]|].
    split; [reflexivity|].
    intros z. rewrite in_app_iff, H4. split.
    + intros [H|H]; [left; apply repeat_spec in H; symmetry; exact H|right; exact H].
    + intros [<-|H]; [left|right; exact H].
      rewrite Hg. left. reflexivity.
Qed.

Lemma np_array_flatten_equal : forall m rows,
  Forall (fun r => length r = S m) rows -> np_array_flatten rows = Some (concat rows).
Proof.
  intros m [|r rows] Hf; [reflexivity|].
  unfold np_array_flatten.
  replace (forallb _ (r :: rows)) with true; [reflexivity|].
  symmetry. apply forallb_forall. intros r' Hr'.
  apply Nat.eqb_eq. rewrite Forall_forall in Hf.
  rewrite (Hf r' Hr'), (Hf r (or_introl eq_refl)). reflexivity.
Qed.

(** With [k] non-empty groups of one common size, [k] distinct labels
    (at least [k] given) and a significant [p_value], [create_anova_report]
    returns its report with a post-hoc table of [k(k-1)/2] rows, one per pair
    of distinct group labels. *)
Theorem create_anova_report_equal_sizes_posthoc :
  forall f_oneway title subtitle filename all_groups age_labels m,
    all_groups <> [] ->
    Forall (fun g => length g = S m) all_groups ->
    (length all_groups <= length age_labels)%nat ->
    NoDup (firstn (length all_groups) age_labels) ->
    snd (f_oneway all_groups) < 5 # 100 ->
    let k := length all_groups in
    exists rep tbl,
      create_anova_report f_oneway title subtitle filename all_groups age_labels = Some rep /\
      posthoc_table rep = Some tbl /\
      (2 * length tbl = k * (k - 1))%nat /\
      (forall a b, In (a, b) tbl ->
         In a (firstn k age_labels) /\ In b (firstn k age_labels) /\ a <> b).
Proof.
  intros f_oneway title subtitle filename all_groups age_labels m
    Hne Hf Hlen Hnd Hp k.
  destruct (label_rows_some all_groups age_labels Hlen) as [rows Hr].
  destruct (label_rows_props m _ _ _ Hr Hf) as [H1 [H2 [H3 H4]]].
  destruct (np_unique_spec (concat rows)) as [Hu Hui].
  set (u := np_unique (concat rows)) in *.
  assert (Hk : length u = k).
  { apply Nat.le_antisymm.
    - replace k with (length (firstn (length all_groups) age_labels))
        by (rewrite length_firstn; unfold k; lia).
      apply NoDup_incl_length; [exact Hu|].
      intros z Hz. apply H4, Hui, Hz.
    - replace k with (length (firstn (length all_groups) age_labels))
        by (rewrite length_firstn; unfold k; lia).
      apply NoDup_incl_length; [exact Hnd|].
      intros z Hz. apply Hui, H4, Hz. }
  unfold create_anova_report.
  destruct (manual_anova all_groups) as [a|] eqn:Ha.
  2:{ destruct all_groups; [contradiction|discriminate]. }
  destruct (f_oneway all_groups) as [F p] eqn:Ef. simpl in Hp.
  rewrite Hr.
  destruct (Qlt_le_dec p (5 # 100)) as [_|Hge];
    [|exfalso; exact (Qlt_not_le _ _ Hp Hge)].
  rewrite (np_array_flatten_equal m rows H2).
  unfold pairwise_tukeyhsd. rewrite H3, Nat.eqb_refl.
  eexists; eexists; split; [reflexivity|]. split; [reflexivity|].
  fold u. split.
  - rewrite combinations2_length, Hk. reflexivity.
  - intros x y Hxy. destruct (combinations2_in u x y Hxy Hu) as [Hx [Hy Hxy']].
    unfold k. rewrite <- !H4, <- !Hui. auto.
Qed.

(** Witness of [create_anova_report_equal_sizes_posthoc]: three groups of
    two observations. *)
Lemma create_anova_report_equal_sizes_posthoc_witness :
  exists rep tbl,
    create_anova_report (fun _ => (10, 1 # 100)) "ANOVA ANALYSIS RESULTS" ""
      "ANOVA_Results.docx" [[1; 2]; [3; 4]; [5; 6]] ["a"; "b"; "c"] = Some rep /\
    posthoc_table rep = Some tbl /\ (2 * length tbl = 3 * (3 - 1))%nat /\
    (forall a b, In (a, b) tbl ->
       In a (firstn 3 ["a"; "b"; "c"]) /\ In b (firstn 3 ["a"; "b"; "c"]) /\ a <> b).
Proof.
  apply (create_anova_report_equal_sizes_posthoc (fun _ => (10, 1 # 100))
           "ANOVA ANALYSIS RESULTS" "" "ANOVA_Results.docx"
           [[1; 2]; [3; 4]; [5; 6]] ["a"; "b"; "c"] 1).
  - discriminate.
  - repeat constructor.
  - simpl. lia.
  - repeat constructor; simpl; intuition discriminate.
  - reflexivity.
Defined.

End PostHocExtraFacts.

(* ------------------------------------------------------------------------- *)
(** ** excel_utils.py: the single-pair and the all-pairs analyses *)

Module CorrelationExtraFacts.
Import Num StatsUtils PyFloat ExcelUtils.

Lemma dropna_pair_length : forall xs ys,
  (length (dropna_pair xs ys) <= length xs)%nat.
Proof.
  induction xs as [|a xs IH]; intros ys; [simpl; lia|].
  destruct ys as [|b ys]; [destruct a; simpl; lia|].
  destruct a, b; simpl; specialize (IH ys); lia.
Qed.

Lemma get_column_in : forall df c col, get_column df c = Some col -> In col df.
Proof.
  intros df c col H. unfold get_column in H. apply find_some in H. tauto.
Qed.

(** What a successful single-pair analysis returns, read off the frame. *)
Lemma analyze_success_inv :
  forall t_ppf pearsonr pd_read_excel series_std py_format filepath col1 col2 alpha tt
         ok res err,
    analyze_excel_correlation t_ppf pearsonr pd_read_excel series_std py_format
      filepath col1 col2 alpha tt = Some (ok, Some res, err) ->
    exists df c1 c2 corr,
      pd_read_excel filepath = ReadOk df /\ df_empty df = false /\
      get_column df col1 = Some c1 /\ get_column df col2 = Some c2 /\
      validate_columns_for_correlation series_std df col1 col2 = Some (true, "") /\
      compute_correlation_from_data pearsonr df col1 col2 = Some corr /\
      cd_sample_size corr = length (dropna_pair (cvalues c1) (cvalues c2)) /\
      ok = true /\ err = "" /\
      let crit := compute_pearson_r_critical t_ppf
                    (Z.of_nat (cd_sample_size corr)) alpha tt in
      let sig := Rgtb (Rabs (cd_r_value corr)) (r_critical crit) in
      res = merge_results corr crit sig
              (Some (significance_text py_format sig alpha (Rabs (cd_r_value corr))
                       (r_critical crit))).
Proof.
  intros t_ppf pearsonr pd_read_excel series_std py_format filepath col1 col2 alpha tt
    ok res err H.
  unfold analyze_excel_correlation, read_excel_file in H.
  destruct (pd_read_excel filepath) as [df| |e] eqn:Hr; try discriminate.
  destruct (df_empty df) eqn:He; [discriminate|].
  destruct (validate_columns_for_correlation series_std df col1 col2) as [[v msg]|] eqn:Hv;
    [|discriminate].
  destruct v; simpl in H; [|discriminate].
  destruct (CorrelationFacts.validate_true_spec _ _ _ _ _ Hv) as [Hmsg _].
  subst msg.
  destruct (compute_correlation_from_data pearsonr df col1 col2) as [corr|] eqn:Hc;
    [|discriminate].
  injection H as <- <- <-.
  assert (Hv' := Hv). unfold validate_columns_for_correlation in Hv'.
  destruct (get_column df col1) as [c1|] eqn:G1; [|discriminate].
  destruct (get_column df col2) as [c2|] eqn:G2; [|discriminate].
  exists df, c1, c2, corr. repeat split; try assumption; try reflexivity.
  unfold compute_correlation_from_data, clean_data in Hc.
  rewrite G1, G2 in Hc.
  destruct (has_column df col1 && has_column df col2); [|discriminate].
  destruct (pearsonr _ _) as [[r p]|]; [|discriminate].
  injection Hc as <-. simpl. apply length_map.
Qed.

Lemma collect_pairs_length : forall t_ppf pearsonr series_std df alpha tt ps,
  (length (collect_pairs t_ppf pearsonr series_std df alpha tt ps) <= length ps)%nat.
Proof.
  intros t_ppf pearsonr series_std df alpha tt ps.
  induction ps as [|p ps IH]; simpl; [lia|].
  destruct (pair_result t_ppf pearsonr series_std df alpha tt p); simpl; lia.
Qed.

(** A successful [analyze_excel_correlation] on two different columns of a
    frame read from the file reports no error, names the two columns, has a
    sample size of at least 3 with [degrees_of_freedom = sample_size - 2],
    and accounts for every row: [original_rows] is the frame's row count and
    [rows_with_missing + sample_size = original_rows]. *)
Theorem analyze_excel_correlation_counts :
  forall t_ppf pearsonr pd_read_excel series_std py_format filepath col1 col2 alpha tt
         ok res err df,
    col1 <> col2 ->
    pd_read_excel filepath = ReadOk df -> df_well_formed df ->
    analyze_excel_correlation t_ppf pearsonr pd_read_excel series_std py_format
      filepath col1 col2 alpha tt = Some (ok, Some res, err) ->
    ok = true /\ err = "" /\
    res_column_1 res = col1 /\ res_column_2 res = col2 /\
    (3 <= res_sample_size res)%Z /\
    res_degrees_of_freedom res = (res_sample_size res - 2)%Z /\
    res_original_rows res = nrows df /\
    (Z.of_nat (res_rows_with_missing res) + res_sample_size res
       = Z.of_nat (res_original_rows res))%Z.
Proof.
  intros t_ppf pearsonr pd_read_excel series_std py_format filepath col1 col2 alpha tt
    ok res err df Hne Hread Hwf H.
  destruct (analyze_success_inv _ _ _ _ _ _ _ _ _ _ _ _ _ H)
    as [df' [c1 [c2 [corr [Hr [He [G1 [G2 [Hv [Hc [Hn [Hok [Herr Hres]]]]]]]]]]]]].
  rewrite Hread in Hr. injection Hr as <-.
  assert (Hlen : length (cvalues c1) = nrows df).
  { unfold df_well_formed in Hwf. rewrite Forall_forall in Hwf.
    apply Hwf. eapply get_column_in; exact G1. }
  assert (H3 : (3 <= length (dropna_pair (cvalues c1) (cvalues c2)))%nat).
  { destruct (CorrelationFacts.validate_true_spec _ _ _ _ _ Hv) as [_ [_ [H3 _]]].
    unfold clean_data in H3. rewrite G1, G2 in H3. exact H3. }
  assert (Hle := dropna_pair_length (cvalues c1) (cvalues c2)).
  assert (Hcorr : column_1 corr = col1 /\ column_2 corr = col2 /\
                  original_rows corr = nrows df /\
                  rows_with_missing corr = (nrows df - cd_sample_size corr)%nat).
  { unfold compute_correlation_from_data in Hc.
    destruct (has_column df col1 && has_column df col2); [|discriminate].
    destruct (pearsonr _ _) as [[r p]|]; [|discriminate].
    injection Hc as <-. simpl. repeat split; reflexivity. }
  destruct Hcorr as [Hc1 [Hc2 [Ho Hm]]].
  cbv zeta in Hres. subst res. cbn [merge_results res_column_1 res_column_2 res_sample_size
    res_degrees_of_freedom res_original_rows res_rows_with_missing
    compute_pearson_r_critical sample_size degrees_of_freedom].
  unfold compute_degrees_of_freedom.
  rewrite Hc1, Hc2, Ho, Hm, Hn.
  repeat split; try assumption; try reflexivity; lia.
Qed.

(** The single-pair analysis and the all-pairs loop compute the same
    record, apart from the ['significance_interpretation'] key: a
    successful [analyze_excel_correlation] returns the loop body's record
    for that pair with that key added, holding the text built from the
    record's [is_significant], the given alpha, [|r_value|] and
    [r_critical]; when the two columns are numeric columns in this order,
    the record without that key is among the results of
    [get_all_correlation_pairs]. *)
Theorem analyze_agrees_with_all_pairs :
  forall t_ppf pearsonr pd_read_excel series_std py_format filepath col1 col2 alpha tt
         ok res err df i j,
    pd_read_excel filepath = ReadOk df ->
    analyze_excel_correlation t_ppf pearsonr pd_read_excel series_std py_format
      filepath col1 col2 alpha tt = Some (ok, Some res, err) ->
    pair_result t_ppf pearsonr series_std df alpha tt (col1, col2)
      = Some (drop_interpretation res) /\
    significance_interpretation res =
      Some (significance_text py_format (is_significant res) alpha
              (Rabs (r_value res)) (res_r_critical res)) /\
    ((i < j)%nat ->
     nth_error (get_numeric_columns df) i = Some col1 ->
     nth_error (get_numeric_columns df) j = Some col2 ->
     In (drop_interpretation res)
        (get_all_correlation_pairs t_ppf pearsonr series_std df alpha tt)).
Proof.
  intros t_ppf pearsonr pd_read_excel series_std py_format filepath col1 col2 alpha tt
    ok res err df i j Hread H.
  destruct (analyze_success_inv _ _ _ _ _ _ _ _ _ _ _ _ _ H)
    as [df' [c1 [c2 [corr [Hr [He [G1 [G2 [Hv [Hc [Hn [Hok [Herr Hres]]]]]]]]]]]]].
  rewrite Hread in Hr. injection Hr as <-. cbv zeta in Hres.
  assert (Hp : pair_result t_ppf pearsonr series_std df alpha tt (col1, col2)
                 = Some (drop_interpretation res)).
  { unfold pair_result. rewrite Hv. simpl. rewrite Hc. rewrite Hres. reflexivity. }
  split; [exact Hp|].
  split; [rewrite Hres; reflexivity|].
  intros Hij Hi Hj.
  unfold get_all_correlation_pairs.
  assert (Hlen : (j < length (get_numeric_columns df))%nat).
  { apply nth_error_Some. rewrite Hj. discriminate. }
  assert (E : Nat.ltb (length (get_numeric_columns df)) 2 = false)
    by (apply Nat.ltb_ge; lia).
  rewrite E.
  eapply CorrelationFacts.collect_pairs_complete; [|exact Hp].
  apply (CorrelationFacts.combinations2_nth _ i j); assumption.
Qed.

(** [get_all_correlation_pairs] returns at most one record per unordered
    pair of numeric columns: at most [k(k-1)/2] records for [k] numeric
    columns. *)
Theorem get_all_correlation_pairs_length :
  forall t_ppf pearsonr series_std df alpha tt,
    let k := length (get_numeric_columns df) in
    (2 * length (get_all_correlation_pairs t_ppf pearsonr series_std df alpha tt)
       <= k * (k - 1))%nat.
Proof.
  intros t_ppf pearsonr series_std df alpha tt k.
  unfold get_all_correlation_pairs. fold k.
  destruct (Nat.ltb k 2); [simpl; apply Nat.le_0_l|].
  unfold k; rewrite <- PostHocExtraFacts.combinations2_length.
  pose proof (collect_pairs_length t_ppf pearsonr series_std df alpha tt
                (combinations2 (get_numeric_columns df))). lia.
Qed.

(** Witness of [analyze_excel_correlation_counts] on a frame with a partly
    missing column [x] and a column [y]. *)
Lemma analyze_excel_correlation_counts_witness :
  exists ok res err,
    analyze_excel_correlation (fun _ _ => 2%R) (fun _ _ => Some (1%R, 0%R))
      (fun _ => ReadOk
        [ {| cname := "x"; cnumeric := true; cvalues := [Some 1; Some 2; Some 3; None]%Q |};
          {| cname := "y"; cnumeric := true; cvalues := [Some 2; Some 3; Some 5; Some 8]%Q |} ])
      Double.series_std_short (fun _ _ => "")
      "data.xlsx" "x" "y" (5 # 100) "two-tailed" = Some (ok, Some res, err) /\
    (3 <= res_sample_size res)%Z /\
    (Z.of_nat (res_rows_with_missing res) + res_sample_size res
       = Z.of_nat (res_original_rows res))%Z.
Proof.
  do 3 eexists. split; [vm_compute; reflexivity|].
  match goal with
  | |- context [res_sample_size ?r] =>
      destruct (analyze_excel_correlation_counts (fun _ _ => 2%R)
                  (fun _ _ => Some (1%R, 0%R))
                  (fun _ => ReadOk
        [ {| cname := "x"; cnumeric := true; cvalues := [Some 1; Some 2; Some 3; None]%Q |};
          {| cname := "y"; cnumeric := true; cvalues := [Some 2; Some 3; Some 5; Some 8]%Q |} ])
                  Double.series_std_short (fun _ _ => "")
                  "data.xlsx" "x" "y" (5 # 100) "two-tailed" true r ""
        [ {| cname := "x"; cnumeric := true; cvalues := [Some 1; Some 2; Some 3; None]%Q |};
          {| cname := "y"; cnumeric := true; cvalues := [Some 2; Some 3; Some 5; Some 8]%Q |} ])
        as [_ [_ [_ [_ [H3 [_ [_ Hrows]]]]]]]
  end.
  - discriminate.
  - reflexivity.
  - repeat constructor.
  - vm_compute. reflexivity.
  - split; assumption.
Defined.

(** Witness of [analyze_agrees_with_all_pairs] on the same frame: the
    columns [x] and [y] are the numeric columns 0 and 1. *)
Lemma analyze_agrees_with_all_pairs_witness :
  exists ok res err,
    analyze_excel_correlation (fun _ _ => 2%R) (fun _ _ => Some (1%R, 0%R))
      (fun _ => ReadOk
        [ {| cname := "x"; cnumeric := true; cvalues := [Some 1; Some 2; Some 3; None]%Q |};
          {| cname := "y"; cnumeric := true; cvalues := [Some 2; Some 3; Some 5; Some 8]%Q |} ])
      Double.series_std_short (fun _ _ => "")
      "data.xlsx" "x" "y" (5 # 100) "two-tailed" = Some (ok, Some res, err) /\
    In (drop_interpretation res)
       (get_all_correlation_pairs (fun _ _ => 2%R) (fun _ _ => Some (1%R, 0%R))
          Double.series_std_short
          [ {| cname := "x"; cnumeric := true; cvalues := [Some 1; Some 2; Some 3; None]%Q |};
            {| cname := "y"; cnumeric := true; cvalues := [Some 2; Some 3; Some 5; Some 8]%Q |} ]
          (5 # 100) "two-tailed").
Proof.
  do 3 eexists. split; [vm_compute; reflexivity|].
  match goal with
  | |- In (drop_interpretation ?r) _ =>
      apply (proj2 (proj2 (analyze_agrees_with_all_pairs (fun _ _ => 2%R)
                  (fun _ _ => Some (1%R, 0%R))
                  (fun _ => ReadOk
        [ {| cname := "x"; cnumeric := true; cvalues := [Some 1; Some 2; Some 3; None]%Q |};
          {| cname := "y"; cnumeric := true; cvalues := [Some 2; Some 3; Some 5; Some 8]%Q |} ])
                  Double.series_std_short (fun _ _ => "")
                  "data.xlsx" "x" "y" (5 # 100) "two-tailed" true r ""
        [ {| cname := "x"; cnumeric := true; cvalues := [Some 1; Some 2; Some 3; None]%Q |};
          {| cname := "y"; cnumeric := true; cvalues := [Some 2; Some 3; Some 5; Some 8]%Q |} ]
                  0 1 eq_refl ltac:(vm_compute; reflexivity))))
  end.
  - lia.
  - reflexivity.
  - reflexivity.
Defined.

End CorrelationExtraFacts.
